(** * ReminderBot: a shallow embedding of [bot.py] and [sync_tasks.py]

    The development follows the layout of the program:
    - [Py]: the Python values the program manipulates (strings as sequences
      of code points, [str.strip], [str.split], [int], exceptions);
    - [Model]: [ReminderModel] rows and the [ReminderCreate] validators;
    - [Sched]: the scheduler the service talks to;
    - [Service]: [ReminderService] over the reminders table and the scheduler;
    - [Parser]: [TimeInputParser];
    - [SyncTasks]: [send_reminder] and [send_reminder_with_retry]. *)

From Stdlib Require Import ZArith NArith List Ascii String Lia Bool.
From Stdlib Require Import Sorting.Sorted Sorting.Permutation.
From Stdlib Require DecimalZ.
From stdpp Require Import base numbers list option gmap sorting.

Local Open Scope Z_scope.

(** ** Python values *)

Module Py.

(** A Python [str] is a sequence of Unicode code points; [len] counts code
    points, so a string is a list of code points here. *)
Abbreviation str := (list N).

(** Exceptions the program can meet.  [ValueError] covers pydantic's
    [ValidationError], which derives from it. *)
Inductive exn : Type :=
  | ValueError
  | IndexError
  | OverflowError
  | IntegrityError
  | MultipleResultsFound
  | JobLookupError
  | SchedulerError
  | TransportError
  | KeyboardInterrupt.

(** [except Exception] catches everything but the exceptions that derive
    from [BaseException] only. *)
Definition is_Exception (e : exn) : bool :=
  match e with
  | KeyboardInterrupt => false
  | _ => true
  end.

(** The outcome of a call: a value, or a raised exception. *)
Inductive result (A : Type) : Type :=
  | Ok (a : A)
  | Raise (e : exn).
Arguments Ok {A} a.
Arguments Raise {A} e.

#[global] Instance result_ret : MRet result := fun A a => Ok a.

#[global] Instance result_bind : MBind result := fun A B k r =>
  match r with
  | Ok a => k a
  | Raise e => Raise e
  end.

Definition is_ok {A} (r : result A) : bool :=
  match r with Ok _ => true | Raise _ => false end.

(** [r] returns, or raises one of the exceptions [allowed]. *)
Definition raises_within {A} (allowed : exn -> bool) (r : result A) : Prop :=
  match r with
  | Ok _ => True
  | Raise e => allowed e = true
  end.

(** *** String literals

    Literals of the source are written as they are and decoded from the
    UTF-8 bytes of the file. *)

Definition byte_val (c : ascii) : N := N_of_ascii c.

Fixpoint utf8_decode_bytes (fuel : nat) (bs : list N) : list N :=
  match fuel with
  | O => []
  | S fuel' =>
    match bs with
    | [] => []
    | b0 :: r0 =>
      if (b0 <? 128)%N then b0 :: utf8_decode_bytes fuel' r0
      else if (b0 <? 224)%N then
        match r0 with
        | b1 :: r1 =>
          ((b0 - 192) * 64 + (b1 - 128))%N :: utf8_decode_bytes fuel' r1
        | _ => []
        end
      else if (b0 <? 240)%N then
        match r0 with
        | b1 :: b2 :: r2 =>
          ((b0 - 224) * 4096 + (b1 - 128) * 64 + (b2 - 128))%N
            :: utf8_decode_bytes fuel' r2
        | _ => []
        end
      else
        match r0 with
        | b1 :: b2 :: b3 :: r3 =>
          ((b0 - 240) * 262144 + (b1 - 128) * 4096 + (b2 - 128) * 64
             + (b3 - 128))%N :: utf8_decode_bytes fuel' r3
        | _ => []
        end
    end
  end.

Definition lit (s : string) : str :=
  let bs := map byte_val (list_ascii_of_string s) in
  utf8_decode_bytes (length bs) bs.

(** *** Whitespace, [strip], [lower] *)

(** [str.isspace] on one code point: the code points CPython classifies as
    whitespace. *)
Definition isspace (c : N) : bool :=
  ((9 <=? c) && (c <=? 13) || (28 <=? c) && (c <=? 32)
   || (c =? 133) || (c =? 160) || (c =? 5760)
   || (8192 <=? c) && (c <=? 8202)
   || (c =? 8232) || (c =? 8233) || (c =? 8239) || (c =? 8287)
   || (c =? 12288))%N.

Fixpoint lstrip (s : str) : str :=
  match s with
  | [] => []
  | c :: r => if isspace c then lstrip r else s
  end.

Definition rstrip (s : str) : str := rev (lstrip (rev s)).

(** [s.strip()] *)
Definition strip (s : str) : str := rstrip (lstrip s).

(** [str.lower] on one code point, for the Latin and Cyrillic alphabets the
    program's phrases are written in; other code points are left as they are. *)
Definition lower_char (c : N) : N :=
  (if (65 <=? c) && (c <=? 90) then c + 32
   else if (1040 <=? c) && (c <=? 1071) then c + 32
   else if (1024 <=? c) && (c <=? 1039) then c + 80
   else c)%N.

Definition lower (s : str) : str := map lower_char s.

(** [len(s)] *)
Definition len (s : str) : Z := Z.of_nat (length s).

(** *** Searching and splitting *)

Fixpoint startswith (s p : str) : bool :=
  match p, s with
  | [], _ => true
  | _ :: _, [] => false
  | a :: p', b :: s' => (a =? b)%N && startswith s' p'
  end.

(** [p in s] *)
Fixpoint contains (p s : str) : bool :=
  startswith s p ||
  match s with
  | [] => false
  | _ :: r => contains p r
  end.

(** [s.split()]: maximal runs of non-whitespace. *)
Fixpoint split_ws_go (s cur : str) : list str :=
  match s with
  | [] => match cur with [] => [] | _ => [rev cur] end
  | c :: r =>
    if isspace c
    then match cur with
         | [] => split_ws_go r []
         | _ => rev cur :: split_ws_go r []
         end
    else split_ws_go r (c :: cur)
  end.

Definition split_ws (s : str) : list str := split_ws_go s [].

(** [s.split(sep)] for a non-empty [sep]: [skip] counts the code points of
    a separator occurrence still to be passed over. *)
Fixpoint split_sep_go (sep s cur : str) (skip : nat) : list str :=
  match s with
  | [] => [rev cur]
  | c :: r =>
    match skip with
    | S k => split_sep_go sep r cur k
    | O =>
      if startswith s sep
      then rev cur :: split_sep_go sep r [] (Nat.pred (length sep))
      else split_sep_go sep r (c :: cur) O
    end
  end.

Definition split_sep (s sep : str) : list str := split_sep_go sep s [] O.

(** [l[i]] for a non-negative literal index. *)
Definition index {A} (l : list A) (i : nat) : result A :=
  match l !! i with
  | Some a => Ok a
  | None => Raise IndexError
  end.

(** *** [str(n)] and [int(s)] *)

Fixpoint digits_of_uint (d : Decimal.uint) : str :=
  match d with
  | Decimal.Nil => []
  | Decimal.D0 r => 48%N :: digits_of_uint r
  | Decimal.D1 r => 49%N :: digits_of_uint r
  | Decimal.D2 r => 50%N :: digits_of_uint r
  | Decimal.D3 r => 51%N :: digits_of_uint r
  | Decimal.D4 r => 52%N :: digits_of_uint r
  | Decimal.D5 r => 53%N :: digits_of_uint r
  | Decimal.D6 r => 54%N :: digits_of_uint r
  | Decimal.D7 r => 55%N :: digits_of_uint r
  | Decimal.D8 r => 56%N :: digits_of_uint r
  | Decimal.D9 r => 57%N :: digits_of_uint r
  end.

(** [str(n)] for an [int]: decimal digits, [-] in front of a negative one. *)
Definition str_of_int (n : Z) : str :=
  match Z.to_int n with
  | Decimal.Pos d => digits_of_uint d
  | Decimal.Neg d => 45%N :: digits_of_uint d
  end.

(** The code points of the digit zero in the scripts that have decimal
    digits (general category Nd, Unicode 14.0); the nine code points after
    each of them are its digits one to nine. *)
Definition decimal_zeros : list N :=
  [48; 1632; 1776; 1984; 2406; 2534; 2662; 2790; 2918; 3046; 3174; 3302;
   3430; 3558; 3664; 3792; 3872; 4160; 4240; 6112; 6160; 6470; 6608; 6784;
   6800; 6992; 7088; 7232; 7248; 42528; 43216; 43264; 43472; 43504; 43600;
   44016; 65296; 66720; 68912; 69734; 69872; 69942; 70096; 70384; 70736;
   70864; 71248; 71360; 71472; 71904; 72016; 72784; 73040; 73120; 92768;
   92864; 93008; 120782; 120792; 120802; 120812; 120822; 123200; 123632;
   125264; 130032]%N.

(** The value of a decimal digit of any script, as [int] reads it. *)
Definition digit_value (c : N) : option Z :=
  match find (fun z => (z <=? c) && (c <=? z + 9))%N decimal_zeros with
  | Some z => Some (Z.of_N (c - z))
  | None => None
  end.

Definition is_digit (c : N) : bool :=
  match digit_value c with
  | Some _ => true
  | None => false
  end.

(** Digits with single underscores between them, as [int] accepts them;
    [prev_digit] tells whether the code point before was a digit. *)
Fixpoint int_digits (s : str) (acc : Z) (prev_digit : bool) : option Z :=
  match s with
  | [] => if prev_digit then Some acc else None
  | c :: r =>
    match digit_value c with
    | Some d => int_digits r (10 * acc + d) true
    | None =>
      if (c =? 95)%N && prev_digit
      then match r with
           | d :: _ => if is_digit d then int_digits r acc false else None
           | [] => None
           end
      else None
    end
  end.

(** [int(s)]: surrounding whitespace is dropped, then an optional sign and
    decimal digits of any script; anything else is a [ValueError].  The cap
    on the number of digits is a setting of the interpreter
    ([sys.set_int_max_str_digits], 4300 where it exists and is not changed),
    beyond the 4096 characters of a chat message, and is not part of [int]
    here. *)
Definition int_of_str (s : str) : result Z :=
  let body := strip s in
  let '(neg, ds) :=
    match body with
    | 45%N :: r => (true, r)
    | 43%N :: r => (false, r)
    | _ => (false, body)
    end in
  match int_digits ds 0 false with
  | Some n => Ok (if neg then - n else n)
  | None => Raise ValueError
  end.

End Py.

Export Py.

(** ** Data model *)

Module Model.

(** An aware [datetime], as far as the program looks at it: the instant it
    denotes, which is what comparisons of aware datetimes and a
    [DateTrigger] go by, and its wall clock, the fields that are left once
    the zone is dropped.  Both count microseconds.  An aware datetime is
    read as its instant where a number is expected. *)
Record aware : Type := {
  instant :> Z;
  wall : Z
}.

(** An aware datetime with the given UTC offset. *)
Definition at_offset (offset i : Z) : aware :=
  {| instant := i; wall := i + offset |}.

(** A row of the [reminders] table ([ReminderModel]).  The [DateTime]
    columns keep no zone: [remind_time] is a wall clock, in microseconds. *)
Record ReminderModel : Type := {
  id : Z;
  user_id : Z;
  chat_id : Z;
  text : str;
  remind_time : Z;
  created_at : Z;
  job_id : str
}.

(** The validated request ([ReminderCreate]). *)
Record ReminderCreate : Type := {
  rc_user_id : Z;
  rc_chat_id : Z;
  rc_text : str;
  rc_remind_time : aware
}.

(** [ReminderCreate.validate_text] *)
Definition validate_text (v : str) : result str :=
  if 500 <? len v then Raise ValueError
  else Ok (strip v).

(** [ReminderCreate.validate_remind_time]; [now] is the instant of
    [datetime.now(AppConfig.Scheduler.TIMEZONE)]: aware datetimes compare by
    their instants. *)
Definition validate_remind_time (now : Z) (v : aware) : result aware :=
  if v <=? now then Raise ValueError
  else Ok v.

(** [ReminderCreate(user_id=..., chat_id=..., text=..., remind_time=...)]:
    pydantic runs the validators of every field, in the order of the fields,
    and raises one [ValidationError] if any of them failed. *)
Definition ReminderCreate_init (now u c : Z) (t : str) (rt : aware)
  : result ReminderCreate :=
  match validate_text t, validate_remind_time now rt with
  | Ok t', Ok rt' =>
    Ok {| rc_user_id := u; rc_chat_id := c; rc_text := t';
          rc_remind_time := rt' |}
  | _, _ => Raise ValueError
  end.

End Model.

Export Model.

(** ** The scheduler *)

Module Sched.

(** The run date a [DateTrigger] is built from: an aware datetime, by its
    instant, or a zone-less one, by its wall clock. *)
Inductive run_date : Type :=
  | Aware (t : Z)
  | Naive (t : Z).


(** A job: the run date of its trigger, and the arguments [(chat_id, text)]
    of the delivery callback. *)
Record Job : Type := {
  fire_time : run_date;
  payload : Z * str
}.

(** Modelled from the spec: the Scheduler and its JobStore (section 4.1).
    The scheduler is [AsyncIOScheduler] over an [SQLAlchemyJobStore], a
    dependency that is not part of the sources.  [timers] are the live
    in-memory timers, [jobstore] the durable job records, both keyed by
    job id. *)
Record Scheduler : Type := {
  timers : gmap str Job;
  jobstore : gmap str Job
}.

Definition empty : Scheduler := {| timers := ∅; jobstore := ∅ |}.

(** Modelled from the spec: looking a job up among the live timers
    ([scheduler.get_job]). *)
Definition get_job (j : str) (s : Scheduler) : option Job := timers s !! j.

(** Modelled from the spec: [cancel(job_id)] removes the timer and the
    JobStore record; [scheduler.remove_job] raises [JobLookupError] when no
    job was found. *)
Definition remove_job (j : str) (s : Scheduler) : result unit * Scheduler :=
  match timers s !! j, jobstore s !! j with
  | None, None => (Raise JobLookupError, s)
  | _, _ =>
    (Ok tt, {| timers := delete j (timers s);
               jobstore := delete j (jobstore s) |})
  end.

(** Modelled from the spec: [clearAll()] cancels every in-memory timer
    without touching JobStore ([scheduler.remove_all_jobs]). *)
Definition remove_all_jobs (s : Scheduler) : Scheduler :=
  {| timers := ∅; jobstore := jobstore s |}.

Section Arm.

(** Which [arm] calls fail with a [SchedulerError]. *)
Variable arm_fails : str -> Job -> bool.

(** Modelled from the spec: [arm(job_id, fire_time, payload)] with
    [replace_existing=True]: the job record is persisted and the timer armed,
    replacing a job of the same id; a failing call changes nothing. *)
Definition add_job (j : str) (job : Job) (s : Scheduler)
  : result unit * Scheduler :=
  if arm_fails j job then (Raise SchedulerError, s)
  else (Ok tt, {| timers := <[j := job]> (timers s);
                  jobstore := <[j := job]> (jobstore s) |}).

End Arm.

End Sched.

Export Sched.

(** ** The service layer *)

Module Service.

(** The reminders table and the scheduler. *)
Record State : Type := {
  db : list ReminderModel;
  sched : Scheduler
}.

Definition initial : State := {| db := []; sched := Sched.empty |}.

(** The key SQLite gives a new row of an [INTEGER PRIMARY KEY] table: one
    more than the largest key in use. *)
Definition next_id (rows : list ReminderModel) : Z :=
  1 + foldr Z.max 0 (id <$> rows).

(** [session.add(row); session.commit()]: [job_id] is [unique=True]. *)
Definition insert (row : ReminderModel) (rows : list ReminderModel)
  : result (ReminderModel * list ReminderModel) :=
  if bool_decide (job_id row ∈ job_id <$> rows) then Raise IntegrityError
  else
    let row' := {| id := next_id rows; user_id := user_id row;
                   chat_id := chat_id row; text := text row;
                   remind_time := remind_time row;
                   created_at := created_at row; job_id := job_id row |} in
    Ok (row', rows ++ [row']).

(** [result.scalar_one_or_none()] *)
Definition scalar_one_or_none {A} (rows : list A) : result (option A) :=
  match rows with
  | [] => Ok None
  | [a] => Ok (Some a)
  | _ => Raise MultipleResultsFound
  end.

(** The job [restore_reminders] arms for a row:
    [DateTrigger(reminder.remind_time)], on the zone-less time read from the
    table, and [args=(reminder.chat_id, reminder.text)]. *)
Definition job_of (r : ReminderModel) : Job :=
  {| fire_time := Naive (remind_time r); payload := (chat_id r, text r) |}.

(** [f"reminder_{user_id}_{int(datetime.now().timestamp())}"]; [ts] is the
    integer timestamp. *)
Definition make_job_id (u ts : Z) : str :=
  lit "reminder_" ++ str_of_int u ++ lit "_" ++ str_of_int ts.

(** The order of [ORDER BY remind_time], on the wall clocks of the table. *)
Definition by_time (a b : ReminderModel) : Prop :=
  remind_time a <= remind_time b.

#[global] Instance by_time_dec a b : Decision (by_time a b) :=
  decide (remind_time a <= remind_time b).

Section WithScheduler.

Variable arm_fails : str -> Job -> bool.

(** [ReminderService.create_reminder]; [ts] is
    [int(datetime.now().timestamp())] and [db_now] the server's [func.now()].
    The row keeps the wall clock of [reminder.remind_time]; the trigger is
    built from the aware datetime itself. *)
Definition create_reminder (ts db_now : Z) (reminder : ReminderCreate)
    (st : State) : result ReminderModel * State :=
  let j := make_job_id (rc_user_id reminder) ts in
  (* try: if get_job(job_id): remove_job(job_id) / except: pass *)
  let sched1 :=
    match get_job j (sched st) with
    | Some _ => snd (remove_job j (sched st))
    | None => sched st
    end in
  let reminder_model :=
    {| id := 0; user_id := rc_user_id reminder;
       chat_id := rc_chat_id reminder; text := rc_text reminder;
       remind_time := wall (rc_remind_time reminder); created_at := db_now;
       job_id := j |} in
  match insert reminder_model (db st) with
  | Raise e => (Raise e, {| db := db st; sched := sched1 |})
  | Ok (row, rows) =>
    match add_job arm_fails j
            {| fire_time := Aware (rc_remind_time reminder);
               payload := (rc_chat_id reminder, rc_text reminder) |} sched1
    with
    | (Raise e, sched2) => (Raise e, {| db := rows; sched := sched2 |})
    | (Ok _, sched2) => (Ok row, {| db := rows; sched := sched2 |})
    end
  end.

(** A create request as the conversation layer issues it:
    [ReminderCreate(...)] and then [create_reminder]. *)
Definition create (now ts db_now u c : Z) (t : str) (rt : aware) (st : State)
  : result ReminderModel * State :=
  match ReminderCreate_init now u c t rt with
  | Raise e => (Raise e, st)
  | Ok reminder => create_reminder ts db_now reminder st
  end.

(** [ReminderService.get_user_reminders]; [now] is the wall clock of
    [datetime.now(AppConfig.Scheduler.TIMEZONE)], which is what the query
    compares the column with. *)
Definition get_user_reminders (now u : Z) (st : State)
  : list ReminderModel * State :=
  (merge_sort by_time
     (filter (fun r => now < remind_time r)
        (filter (fun r => user_id r = u) (db st))), st).

(** [ReminderService.delete_reminder] *)
Definition delete_reminder (reminder_id : Z) (st : State)
  : result bool * State :=
  match scalar_one_or_none
          (job_id <$> filter (fun r => id r = reminder_id) (db st)) with
  | Raise e => (Raise e, st)
  | Ok None => (Ok false, st)
  | Ok (Some j) =>
    match j with
    | [] => (Ok false, st)
    | _ :: _ =>
      let rows := filter (fun r => id r <> reminder_id) (db st) in
      (* try: remove_job(job_id) / except Exception: logged *)
      (Ok true, {| db := rows; sched := snd (remove_job j (sched st)) |})
    end
  end.

(** The loop of [restore_reminders]: a failing [add_job] is logged and the
    loop goes on. *)
Fixpoint restore_loop (reminders : list ReminderModel) (s : Scheduler)
  : Scheduler :=
  match reminders with
  | [] => s
  | reminder :: rest =>
    restore_loop rest
      (snd (add_job arm_fails (job_id reminder) (job_of reminder) s))
  end.

(** [ReminderService.restore_reminders]; [now] is the wall clock of
    [datetime.now(AppConfig.Scheduler.TIMEZONE)], as in
    [get_user_reminders]. *)
Definition restore_reminders (now : Z) (st : State) : result unit * State :=
  let s0 := remove_all_jobs (sched st) in
  let reminders := filter (fun r => now < remind_time r) (db st) in
  (Ok tt, {| db := db st; sched := restore_loop reminders s0 |}).

(** The states the program goes through: requests of the conversation
    layer, reconciliation, and a restart of the process, which loses the
    in-memory timers. *)
Inductive reachable : State -> Prop :=
  | reach_initial : reachable initial
  | reach_create now ts dbn u c t rt st :
      reachable st -> reachable (create now ts dbn u c t rt st).2
  | reach_delete i st :
      reachable st -> reachable (delete_reminder i st).2
  | reach_restore now st :
      reachable st -> reachable (restore_reminders now st).2
  | reach_restart st :
      reachable st ->
      reachable {| db := db st; sched := remove_all_jobs (sched st) |}.

End WithScheduler.

(** What the table satisfies whenever rows come from [create_reminder]:
    primary keys and job ids are unique, and job ids are not empty. *)
Definition store_inv (rows : list ReminderModel) : Prop :=
  NoDup (id <$> rows) /\ NoDup (job_id <$> rows)
  /\ forall r, r ∈ rows -> job_id r <> [].

End Service.

Export Service.

(** ** The time parser *)

Module Parser.

(** [datetime.date.max.toordinal()]: 9999-12-31. *)
Definition MAXORDINAL : Z := 3652059.

(** A [datetime]: the day as its proleptic Gregorian ordinal (1 is
    0001-01-01) and the time of day.  Every datetime the parser builds
    carries [AppConfig.Scheduler.TIMEZONE]. *)
Record datetime : Type := {
  ordinal : Z;
  hour : Z;
  minute : Z;
  second : Z;
  microsecond : Z
}.

(** A normalised [timedelta]. *)
Record timedelta : Type := {
  td_days : Z;
  td_seconds : Z;
  td_microseconds : Z
}.

(** [timedelta] from a whole number of seconds: more than 999999999 days
    either way is an [OverflowError]. *)
Definition timedelta_of_seconds (secs : Z) : result timedelta :=
  let d := secs / 86400 in
  if (-999999999 <=? d) && (d <=? 999999999)
  then Ok {| td_days := d; td_seconds := secs mod 86400;
             td_microseconds := 0 |}
  else Raise OverflowError.

Definition timedelta_minutes (n : Z) : result timedelta :=
  timedelta_of_seconds (60 * n).
Definition timedelta_hours (n : Z) : result timedelta :=
  timedelta_of_seconds (3600 * n).
Definition timedelta_days (n : Z) : result timedelta :=
  timedelta_of_seconds (86400 * n).

(** [dt + td]: a result outside years 1..9999 is an [OverflowError]. *)
Definition datetime_add (dt : datetime) (td : timedelta) : result datetime :=
  let us := microsecond dt + td_microseconds td in
  let secs :=
    hour dt * 3600 + minute dt * 60 + second dt + td_seconds td
    + us / 1000000 in
  let d := ordinal dt + td_days td + secs / 86400 in
  if (1 <=? d) && (d <=? MAXORDINAL)
  then Ok {| ordinal := d; hour := (secs mod 86400) / 3600;
             minute := ((secs mod 86400) mod 3600) / 60;
             second := (secs mod 86400) mod 60;
             microsecond := us mod 1000000 |}
  else Raise OverflowError.

(** [d + timedelta(days=n)] on a [date], given as its ordinal. *)
Definition date_add_days (d n : Z) : result Z :=
  td ← timedelta_days n;
  let d' := d + td_days td in
  if (1 <=? d') && (d' <=? MAXORDINAL) then Ok d' else Raise OverflowError.

Definition fits_C_int (n : Z) : bool :=
  (- 2147483648 <=? n) && (n <=? 2147483647).

(** [datetime.combine(date, datetime.min.time()).replace(hour=h, minute=m,
    tzinfo=...)]: an argument that does not fit a C [int] is an
    [OverflowError], one out of range a [ValueError]. *)
Definition combine_replace (date h m : Z) : result datetime :=
  if negb (fits_C_int h && fits_C_int m) then Raise OverflowError
  else if negb ((0 <=? h) && (h <=? 23)) then Raise ValueError
  else if negb ((0 <=? m) && (m <=? 59)) then Raise ValueError
  else Ok {| ordinal := date; hour := h; minute := m; second := 0;
             microsecond := 0 |}.

(** The formats [_parse_datetime] tries: ["%d.%m.%Y %H:%M"],
    ["%d.%m %H:%M"] and ["%H:%M"]. *)
Inductive format : Type :=
  | Fmt_dmY_HM
  | Fmt_dm_HM
  | Fmt_HM.

Definition unit_minutes : list str := [lit "мин"; lit "min"].
Definition unit_hours : list str := [lit "час"; lit "hour"].
Definition unit_days : list str := [lit "день"; lit "ден"; lit "day"].

(** [any(x in unit for x in xs)] *)
Definition any_in (xs : list str) (unit : str) : bool :=
  existsb (fun x => contains x unit) xs.

(** [hours, minutes = map(int, parts)]: exactly two items, both integers;
    every other case is a [ValueError]. *)
Definition unpack_two_ints (parts : list str) : result (Z * Z) :=
  match parts with
  | [a; b] =>
    h ← int_of_str a;
    m ← int_of_str b;
    Ok (h, m)
  | _ => Raise ValueError
  end.

(** The exceptions the helpers of the parser can raise. *)
Definition parse_errors (e : exn) : bool :=
  match e with
  | ValueError | IndexError | OverflowError => true
  | _ => false
  end.

(** What [except (ValueError, IndexError)] in [parse] does not catch, among
    them. *)
Definition only_overflow (e : exn) : bool :=
  match e with
  | OverflowError => true
  | _ => false
  end.

Section WithStrptime.

(** [datetime.strptime(text, fmt)], from the standard library. *)
Variable strptime : str -> format -> result datetime.

(** [TimeInputParser._parse_relative] *)
Definition _parse_relative (text : str) (now : datetime) : result datetime :=
  let parts := split_ws text in
  p1 ← index parts 1;
  num ← int_of_str p1;
  unit ← index parts 2;
  delta ←
    (if any_in unit_minutes unit then timedelta_minutes num
     else if any_in unit_hours unit then timedelta_hours num
     else if any_in unit_days unit then timedelta_days num
     else Raise ValueError);
  datetime_add now delta.

(** [TimeInputParser._parse_absolute] *)
Definition _parse_absolute (text : str) (now : datetime) : result datetime :=
  '(date, time_part) ←
    (if contains (lit "завтра") text then
       date ← date_add_days (ordinal now) 1;
       time_part ← index (split_sep text (lit "в ")) 1;
       Ok (date, time_part)
     else
       time_part ←
         (if contains (lit "в ") text
          then index (split_sep text (lit "в ")) 1
          else Ok text);
       Ok (ordinal now, time_part));
  '(hours, minutes) ←
    (if contains (lit ":") time_part
     then unpack_two_ints (split_sep time_part (lit ":"))
     else h ← int_of_str time_part; Ok (h, 0));
  combine_replace date hours minutes.

(** The loop of [_parse_datetime] over the formats: a [ValueError] moves on
    to the next format. *)
Fixpoint try_formats (fmts : list format) (text : str) (now : datetime)
  : result datetime :=
  match fmts with
  | [] => Raise ValueError
  | fmt :: rest =>
    match strptime text fmt with
    | Ok dt =>
      match fmt with
      | Fmt_HM =>
        Ok {| ordinal := ordinal now; hour := hour dt; minute := minute dt;
              second := second dt; microsecond := microsecond dt |}
      | _ => Ok dt
      end
    | Raise ValueError => try_formats rest text now
    | Raise e => Raise e
    end
  end.

(** [TimeInputParser._parse_datetime] *)
Definition _parse_datetime (text : str) (now : datetime) : result datetime :=
  try_formats [Fmt_dmY_HM; Fmt_dm_HM; Fmt_HM] text now.

(** [TimeInputParser.parse]; [now] is
    [datetime.now(AppConfig.Scheduler.TIMEZONE)]. *)
Definition parse (now : datetime) (input_str : str)
  : result (option datetime) :=
  let input_str := strip (lower input_str) in
  let r :=
    if startswith input_str (lit "через") then _parse_relative input_str now
    else if contains (lit "в ") input_str then _parse_absolute input_str now
    else _parse_datetime input_str now in
  match r with
  | Ok dt => Ok (Some dt)
  | Raise ValueError | Raise IndexError => Ok None
  | Raise e => Raise e
  end.

End WithStrptime.

End Parser.

Export Parser.

(** ** Delivery: [sync_tasks.py] *)

Module SyncTasks.

(** What delivery leaves behind: the messages handed to the transport, and
    the error log (a message prefix and the exception). *)
Record World : Type := {
  sent : list (Z * str);
  log : list (str * exn)
}.

Definition logger_error (prefix : str) (e : exn) (w : World) : World :=
  {| sent := sent w; log := log w ++ [(prefix, e)] |}.

Section WithTransport.

(** How [TeleBot(TOKEN).send_message] ends, for the n-th message handed to
    the transport. *)
Variable transport : nat -> Z -> str -> result unit.

(** [bot = TeleBot(AppConfig.Bot.TOKEN); bot.send_message(chat_id, msg)] *)
Definition send_message (chat_id : Z) (msg : str) (w : World)
  : result unit * World :=
  (transport (length (sent w)) chat_id msg,
   {| sent := sent w ++ [(chat_id, msg)]; log := log w |}).

(** [sync_tasks.send_reminder] *)
Definition send_reminder (chat_id : Z) (text : str) (w : World)
  : result unit * World :=
  match send_message chat_id (lit "⏰ Напоминание: " ++ text) w with
  | (Ok _, w') => (Ok tt, w')
  | (Raise e, w') =>
    if is_Exception e
    then (Ok tt, logger_error (lit "Failed to send reminder: ") e w')
    else (Raise e, w')
  end.

(** The [for attempt in range(max_retries)] loop of
    [send_reminder_with_retry]. *)
Fixpoint retry_loop (chat_id : Z) (text : str) (max_retries : Z)
    (attempts : list Z) (w : World) : result unit * World :=
  match attempts with
  | [] => (Ok tt, w)
  | attempt :: rest =>
    match send_reminder chat_id text w with
    | (Ok _, w') => (Ok tt, w')   (* break *)
    | (Raise e, w') =>
      if is_Exception e
      then
        retry_loop chat_id text max_retries rest
          (if attempt =? max_retries - 1
           then logger_error
                  (lit "Failed after " ++ str_of_int max_retries
                     ++ lit " attempts: ") e w'
           else w')
      else (Raise e, w')
    end
  end.

(** [sync_tasks.send_reminder_with_retry] *)
Definition send_reminder_with_retry (chat_id : Z) (text : str)
    (max_retries : Z) (w : World) : result unit * World :=
  retry_loop chat_id text max_retries (seqZ 0 max_retries) w.

End WithTransport.

End SyncTasks.

Export SyncTasks.

(** ** The keyboards: [BotUI] *)

Module UI.

(** [InlineKeyboardButton(text, callback_data=...)] *)
Record InlineKeyboardButton : Type := {
  btn_text : str;
  callback_data : str
}.

(** An [InlineKeyboardMarkup]: its rows of buttons. *)
Abbreviation InlineKeyboardMarkup := (list (list InlineKeyboardButton)).

(** [BotUI.main_menu]: [markup.row] puts the two buttons on one row. *)
Definition main_menu : InlineKeyboardMarkup :=
  [[ {| btn_text := lit "Создать напоминание";
        callback_data := lit "create_reminder" |};
     {| btn_text := lit "Мои напоминания";
        callback_data := lit "list_reminders" |} ]].

(** [BotUI.cancel_button] *)
Definition cancel_button : InlineKeyboardMarkup :=
  [[ {| btn_text := lit "Отмена"; callback_data := lit "cancel" |} ]].

Section WithStrftime.

(** [remind_time.strftime(fmt)] for the time of a row, from the standard
    library. *)
Variable strftime : str -> Z -> str.

(** The button of one reminder in [BotUI.reminders_list]. *)
Definition reminder_button (reminder : ReminderModel)
  : InlineKeyboardButton :=
  {| btn_text :=
       take 15 (text reminder) ++ lit "... - "
         ++ strftime (lit "%d.%m %H:%M") (remind_time reminder);
     callback_data := lit "delete_" ++ str_of_int (id reminder) |}.

(** [BotUI.reminders_list]: [markup.add] starts a row for each button. *)
Definition reminders_list (reminders : list ReminderModel)
  : InlineKeyboardMarkup :=
  (fun reminder => [reminder_button reminder]) <$> reminders.

End WithStrftime.

End UI.

Export UI.

(** ** The conversation: [BotHandlers] *)

Module Handlers.

(** [BotState] *)
Inductive BotState : Type :=
  | MAIN_MENU
  | SET_TEXT
  | SET_TIME.

(** [UserContext]: [data] is a dict the program writes under the keys
    ["chat_id"] and ["text"] only; [None] is a missing key.  [created_at]
    is never read and is left out. *)
Record UserContext : Type := {
  ctx_state : BotState;
  data_chat_id : option Z;
  data_text : option str
}.

(** An incoming [Message]: [from_user.id], [chat.id] and [text]. *)
Record Message : Type := {
  m_from_user : Z;
  m_chat : Z;
  m_text : str
}.

(** An incoming [CallbackQuery]: [id], [from_user.id], [message.chat.id],
    [message.message_id] and [data]. *)
Record CallbackQuery : Type := {
  c_id : str;
  c_from_user : Z;
  c_chat : Z;
  c_message_id : Z;
  c_data : str
}.

(** The calls of the Bot API the handlers make. *)
Inductive BotCall : Type :=
  | send_message_call (chat : Z) (msg : str) (reply_markup : InlineKeyboardMarkup)
  | edit_message_text_call (msg : str) (chat message_id : Z)
      (reply_markup : InlineKeyboardMarkup)
  | answer_callback_query_call (call_id : str) (msg : str).

(** What a handler can end with: an exception of [Py.exn], or the
    [KeyError] of a missing key of [data]. *)
Inductive error : Type :=
  | PyError (e : exn)
  | KeyError.

Inductive outcome (A : Type) : Type :=
  | Done (a : A)
  | Fail (e : error).
Arguments Done {A} a.
Arguments Fail {A} e.

(** [BotComponents] as the handlers see it: the contexts of the users, the
    table with the scheduler, and the Bot API calls made so far. *)
Record Bot : Type := {
  user_contexts : gmap Z UserContext;
  service : State;
  calls : list BotCall
}.

Definition set_contexts (m : gmap Z UserContext) (b : Bot) : Bot :=
  {| user_contexts := m; service := service b; calls := calls b |}.

Definition set_service (s : State) (b : Bot) : Bot :=
  {| user_contexts := user_contexts b; service := s; calls := calls b |}.

(** [context.data[key]] *)
Definition getitem {A} (o : option A) : outcome A :=
  match o with
  | Some a => Done a
  | None => Fail KeyError
  end.

(** The line break of the listing. *)
Definition new_line : str := [10%N].

(** The tzinfo of a datetime [TimeInputParser.parse] returned:
    [_parse_relative] returns [now + delta], which keeps the tzinfo of
    [now]; [_parse_absolute] and [_parse_datetime] attach
    [AppConfig.Scheduler.TIMEZONE] itself with [replace]. *)
Inductive tzinfo : Type :=
  | TzNow
  | TzZone.

Definition result_tzinfo (input_str : str) : tzinfo :=
  if startswith (strip (lower input_str)) (lit "через") then TzNow
  else TzZone.

(** The wall clock of a datetime of the parser, in microseconds. *)
Definition wall_of (dt : datetime) : Z :=
  (ordinal dt * 86400 + hour dt * 3600 + minute dt * 60 + second dt)
    * 1000000 + microsecond dt.

(** The filters of the callback handlers, in the order of
    [register_handlers]. *)
Definition is_create (data : str) : bool :=
  bool_decide (data = lit "create_reminder").
Definition is_list (data : str) : bool :=
  bool_decide (data = lit "list_reminders").
Definition is_delete (data : str) : bool :=
  startswith data (lit "delete_").
Definition is_cancel (data : str) : bool :=
  bool_decide (data = lit "cancel").

Section WithEnvironment.

Variable arm_fails : str -> Job -> bool.
Variable strptime : str -> format -> result datetime.

(** The UTC offset of a tzinfo, in microseconds (from pytz). *)
Variable utcoffset : tzinfo -> Z.

(** The aware datetime [parse] returned for an input: its fields and the
    tzinfo they come with. *)
Definition aware_of (input_str : str) (dt : datetime) : aware :=
  {| instant := wall_of dt - utcoffset (result_tzinfo input_str);
     wall := wall_of dt |}.

(** [strftime] on the time of a row and on a datetime the parser built. *)
Variable strftime : str -> Z -> str.
Variable strftime_dt : str -> datetime -> str.

(** [str(e)] for the [ValidationError] of a request with the given text and
    time at the given current time. *)
Variable validation_message : str -> Z -> Z -> str.

(** Which Bot API call fails, counted from the first one made. *)
Variable api_fails : nat -> bool.

(** A call of the Bot API: it is made, and may raise. *)
Definition api (c : BotCall) (b : Bot) : outcome unit * Bot :=
  (if api_fails (length (calls b)) then Fail (PyError TransportError)
   else Done tt,
   {| user_contexts := user_contexts b; service := service b;
      calls := calls b ++ [c] |}).

(** [BotHandlers.handle_start] *)
Definition handle_start (message : Message) (b : Bot) : outcome unit * Bot :=
  let b1 :=
    set_contexts
      (<[m_from_user message :=
           {| ctx_state := MAIN_MENU; data_chat_id := None;
              data_text := None |}]> (user_contexts b)) b in
  api (send_message_call (m_chat message)
         (lit "Привет! Я бот для управления напоминаниями.") main_menu) b1.

(** [BotHandlers.handle_create_reminder] *)
Definition handle_create_reminder (call : CallbackQuery) (b : Bot)
  : outcome unit * Bot :=
  let b1 :=
    set_contexts
      (<[c_from_user call :=
           {| ctx_state := SET_TEXT; data_chat_id := Some (c_chat call);
              data_text := None |}]> (user_contexts b)) b in
  api (edit_message_text_call (lit "Введите текст напоминания:")
         (c_chat call) (c_message_id call) cancel_button) b1.

(** The [try] block of [handle_text_input] in state [SET_TIME]; [now] is the
    current time of the validator, [ts] and [db_now] the readings of
    [create_reminder]. *)
Definition create_from_context (now ts db_now : Z) (message : Message)
    (context : UserContext) (remind_time : datetime) (b : Bot)
  : outcome unit * Bot :=
  let user := m_from_user message in
  match getitem (data_chat_id context) with
  | Fail e => (Fail e, b)
  | Done chat =>
    match getitem (data_text context) with
    | Fail e => (Fail e, b)
    | Done t =>
      match ReminderCreate_init now user chat t
              (aware_of (m_text message) remind_time) with
      | Raise e => (Fail (PyError e), b)
      | Ok reminder =>
        match create_reminder arm_fails ts db_now reminder (service b) with
        | (Raise e, s) => (Fail (PyError e), set_service s b)
        | (Ok _, s) =>
          match api (send_message_call (m_chat message)
                       (lit "✅ Напоминание создано на "
                          ++ strftime_dt (lit "%d.%m.%Y %H:%M") remind_time)
                       main_menu) (set_service s b) with
          | (Fail e, b2) => (Fail e, b2)
          | (Done _, b2) =>
            (* context.state = BotState.MAIN_MENU *)
            (Done tt,
             set_contexts
               (<[user := {| ctx_state := MAIN_MENU;
                             data_chat_id := data_chat_id context;
                             data_text := data_text context |}]>
                  (user_contexts b2)) b2)
          end
        end
      end
    end
  end.

(** [BotHandlers.handle_text_input]; [now_dt] is the current time of the
    parser. *)
Definition handle_text_input (now_dt : datetime) (now ts db_now : Z)
    (message : Message) (b : Bot) : outcome unit * Bot :=
  let user := m_from_user message in
  match user_contexts b !! user with
  | None => (Done tt, b)
  | Some context =>
    match ctx_state context with
    | SET_TEXT =>
      let b1 :=
        set_contexts
          (<[user := {| ctx_state := SET_TIME;
                        data_chat_id := data_chat_id context;
                        data_text := Some (m_text message) |}]>
             (user_contexts b)) b in
      api (send_message_call (m_chat message)
             (lit "Введите время напоминания (например: 'через 30 минут' или 'завтра в 15:00')")
             cancel_button) b1
    | SET_TIME =>
      match parse strptime now_dt (m_text message) with
      | Raise e => (Fail (PyError e), b)
      | Ok None =>
        api (send_message_call (m_chat message)
               (lit "Неверный формат времени. Попробуйте снова.")
               cancel_button) b
      | Ok (Some remind_time) =>
        match create_from_context now ts db_now message context remind_time b
        with
        | (Fail (PyError ValueError), b1) =>
          (* except ValueError as e *)
          api (send_message_call (m_chat message)
                 (lit "Ошибка: "
                    ++ validation_message
                         (default [] (data_text context))
                         (aware_of (m_text message) remind_time) now)
                 cancel_button) b1
        | r => r
        end
      end
    | MAIN_MENU => (Done tt, b)
    end
  end.

(** The line of one reminder in the listing. *)
Definition reminder_line (reminder : ReminderModel) : str :=
  lit "• " ++ text reminder ++ lit " - "
    ++ strftime (lit "%d.%m.%Y %H:%M") (remind_time reminder) ++ new_line.

(** [BotHandlers.handle_list_reminders]; [now] is the current time of the
    query. *)
Definition handle_list_reminders (now : Z) (call : CallbackQuery) (b : Bot)
  : outcome unit * Bot :=
  let '(reminders, s) := get_user_reminders now (c_from_user call) (service b) in
  let b1 := set_service s b in
  match reminders with
  | [] =>
    api (edit_message_text_call (lit "У вас нет активных напоминаний.")
           (c_chat call) (c_message_id call) main_menu) b1
  | _ :: _ =>
    api (edit_message_text_call
           (lit "📋 Ваши активные напоминания:" ++ new_line ++ new_line
              ++ concat (reminder_line <$> reminders))
           (c_chat call) (c_message_id call)
           (reminders_list strftime reminders)) b1
  end.

(** [int(call.data.split("_")[1])] *)
Definition reminder_id_of_data (data : str) : result Z :=
  index (split_sep data (lit "_")) 1 ≫= int_of_str.

(** [BotHandlers.handle_delete_reminder] *)
Definition handle_delete_reminder (call : CallbackQuery) (b : Bot)
  : outcome unit * Bot :=
  match reminder_id_of_data (c_data call) with
  | Raise e => (Fail (PyError e), b)
  | Ok reminder_id =>
    match delete_reminder reminder_id (service b) with
    | (Raise e, s) => (Fail (PyError e), set_service s b)
    | (Ok true, s) =>
      match api (answer_callback_query_call (c_id call)
                   (lit "Напоминание удалено!")) (set_service s b) with
      | (Fail e, b1) => (Fail e, b1)
      | (Done _, b1) =>
        api (edit_message_text_call (lit "Напоминание успешно удалено.")
               (c_chat call) (c_message_id call) main_menu) b1
      end
    | (Ok false, s) =>
      api (answer_callback_query_call (c_id call)
             (lit "Ошибка удаления напоминания!")) (set_service s b)
    end
  end.

(** [BotHandlers.handle_cancel] *)
Definition handle_cancel (call : CallbackQuery) (b : Bot)
  : outcome unit * Bot :=
  let b1 :=
    set_contexts
      (<[c_from_user call :=
           {| ctx_state := MAIN_MENU; data_chat_id := None;
              data_text := None |}]> (user_contexts b)) b in
  api (edit_message_text_call (lit "Действие отменено.")
         (c_chat call) (c_message_id call) main_menu) b1.

(** A callback query goes to the first registered handler whose filter
    accepts its data, and to none if no filter does. *)
Definition on_callback_query (now : Z) (call : CallbackQuery) (b : Bot)
  : outcome unit * Bot :=
  if is_create (c_data call) then handle_create_reminder call b
  else if is_list (c_data call) then handle_list_reminders now call b
  else if is_delete (c_data call) then handle_delete_reminder call b
  else if is_cancel (c_data call) then handle_cancel call b
  else (Done tt, b).

(** The states the conversation goes through, from no context at all. *)
Inductive conversation : Bot -> Prop :=
  | conv_initial s : conversation
      {| user_contexts := ∅; service := s; calls := [] |}
  | conv_start message b :
      conversation b -> conversation (handle_start message b).2
  | conv_text now_dt now ts db_now message b :
      conversation b ->
      conversation (handle_text_input now_dt now ts db_now message b).2
  | conv_callback now call b :
      conversation b -> conversation (on_callback_query now call b).2.

End WithEnvironment.

(** What the contexts satisfy along a conversation: the keys of [data] the
    state reads are there. *)
Definition context_ok (context : UserContext) : Prop :=
  match ctx_state context with
  | MAIN_MENU => True
  | SET_TEXT => is_Some (data_chat_id context)
  | SET_TIME => is_Some (data_chat_id context) /\ is_Some (data_text context)
  end.

Definition contexts_ok (b : Bot) : Prop :=
  forall user context,
    user_contexts b !! user = Some context -> context_ok context.

End Handlers.

Export Handlers.

(** ** Sample inputs

    A scheduler and a Bot API that never fail, and one short conversation,
    for the examples below. *)

Module Samples.

Definition arm_ok : str -> Job -> bool := fun _ _ => false.
Definition api_ok : nat -> bool := fun _ => false.
Definition no_strptime : str -> format -> result datetime :=
  fun _ _ => Raise ValueError.
(** The offsets of Europe/Moscow in pytz: +03:00 once localized, the
    local mean time +02:30 for the zone object as it is. *)
Definition moscow (tz : tzinfo) : Z :=
  match tz with
  | TzNow => 10800000000
  | TzZone => 9000000000
  end.
Definition no_strftime : str -> Z -> str := fun _ _ => [].
Definition no_strftime_dt : str -> datetime -> str := fun _ _ => [].
Definition no_message : str -> Z -> Z -> str := fun _ _ _ => [].

Definition noon : datetime :=
  {| ordinal := 739925; hour := 12; minute := 0; second := 0;
     microsecond := 0 |}.

(** The instant of [noon] in Moscow. *)
Definition noon_instant : Z := wall_of noon - moscow TzNow.

Definition empty_bot : Bot :=
  {| user_contexts := ∅; service := initial; calls := [] |}.

Definition press_create : CallbackQuery :=
  {| c_id := lit "1"; c_from_user := 7; c_chat := 8; c_message_id := 1;
     c_data := lit "create_reminder" |}.

Definition say_text : Message :=
  {| m_from_user := 7; m_chat := 8; m_text := lit " buy milk " |}.

Definition say_time : Message :=
  {| m_from_user := 7; m_chat := 8; m_text := lit "через 5 минут" |}.

Definition say_past : Message :=
  {| m_from_user := 7; m_chat := 8; m_text := lit "через -5 минут" |}.

Definition milk : ReminderModel :=
  {| id := 1; user_id := 7; chat_id := 8; text := lit "buy milk";
     remind_time := 50; created_at := 0; job_id := make_job_id 7 100 |}.

End Samples.

(** * Properties *)

(** ** Strings *)

Lemma length_lstrip (s : str) : (length (lstrip s) <= length s)%nat.
Proof.
  induction s as [|c r IH]; simpl; [lia|].
  destruct (isspace c); simpl; lia.
Qed.

Lemma length_strip (s : str) : (length (strip s) <= length s)%nat.
Proof.
  unfold strip, rstrip. rewrite length_rev.
  etransitivity; [apply length_lstrip|].
  rewrite length_rev. apply length_lstrip.
Qed.

Lemma len_strip (s : str) : len (strip s) <= len s.
Proof. unfold len. pose proof (length_strip s). lia. Qed.

(** ** Validation *)

Lemma validate_text_ok (v : str) :
  len v <= 500 -> validate_text v = Ok (strip v).
Proof.
  intros H. unfold validate_text.
  destruct (Z.ltb_spec 500 (len v)); [lia | reflexivity].
Qed.

Lemma validate_text_long (v : str) :
  500 < len v -> validate_text v = Raise ValueError.
Proof.
  intros H. unfold validate_text.
  destruct (Z.ltb_spec 500 (len v)); [reflexivity | lia].
Qed.

Lemma validate_remind_time_future (now : Z) (v : aware) :
  now < v -> validate_remind_time now v = Ok v.
Proof.
  intros H. unfold validate_remind_time.
  destruct (Z.leb_spec v now); [lia | reflexivity].
Qed.

Lemma validate_remind_time_past (now : Z) (v : aware) :
  v <= now -> validate_remind_time now v = Raise ValueError.
Proof.
  intros H. unfold validate_remind_time.
  destruct (Z.leb_spec v now); [reflexivity | lia].
Qed.

(** What a successfully built request looks like. *)
Lemma ReminderCreate_init_ok now u c t rt rc :
  ReminderCreate_init now u c t rt = Ok rc ->
  len t <= 500 /\ now < rt /\
  rc = {| rc_user_id := u; rc_chat_id := c; rc_text := strip t;
          rc_remind_time := rt |}.
Proof.
  unfold ReminderCreate_init, validate_text, validate_remind_time.
  destruct (Z.ltb_spec 500 (len t)); [discriminate|].
  destruct (Z.leb_spec rt now); [discriminate|].
  intros [= <-]. auto.
Qed.

(** ** Job ids *)

Lemma digits_of_uint_digit (d : Decimal.uint) (c : N) :
  c ∈ digits_of_uint d -> is_digit c = true.
Proof.
  induction d; simpl; intros Hc;
    try (apply elem_of_cons in Hc as [-> | Hc]; [reflexivity | auto]).
  apply elem_of_nil in Hc. contradiction.
Qed.

Lemma digits_of_uint_inj (d1 d2 : Decimal.uint) :
  digits_of_uint d1 = digits_of_uint d2 -> d1 = d2.
Proof.
  revert d2. induction d1; destruct d2; simpl; intros H;
    try discriminate; try reflexivity;
    injection H as H; f_equal; auto.
Qed.

Lemma str_of_int_chars (n : Z) (c : N) :
  c ∈ str_of_int n -> c = 45%N \/ is_digit c = true.
Proof.
  unfold str_of_int. destruct (Z.to_int n) as [d | d]; intros Hc.
  - right. eapply digits_of_uint_digit; eauto.
  - apply elem_of_cons in Hc as [-> | Hc]; [by left|].
    right. eapply digits_of_uint_digit; eauto.
Qed.

Lemma str_of_int_no_underscore (n : Z) : 95%N ∉ str_of_int n.
Proof.
  intros Hc. apply str_of_int_chars in Hc as [Hc | Hc]; discriminate.
Qed.

Lemma str_of_int_inj (a b : Z) : str_of_int a = str_of_int b -> a = b.
Proof.
  unfold str_of_int. intros H.
  rewrite <- (DecimalZ.of_to a), <- (DecimalZ.of_to b).
  destruct (Z.to_int a) as [d1 | d1], (Z.to_int b) as [d2 | d2].
  - by rewrite (digits_of_uint_inj _ _ H).
  - exfalso. assert (Hc : 45%N ∈ digits_of_uint d1)
      by (rewrite H; apply elem_of_cons; by left).
    apply digits_of_uint_digit in Hc. discriminate.
  - exfalso. assert (Hc : 45%N ∈ digits_of_uint d2)
      by (rewrite <- H; apply elem_of_cons; by left).
    apply digits_of_uint_digit in Hc. discriminate.
  - injection H as H. by rewrite (digits_of_uint_inj _ _ H).
Qed.

(** A list splits in one way only at the first occurrence of a separator. *)
Lemma split_first_unique {A} (x : A) (l1 l2 r1 r2 : list A) :
  x ∉ l1 -> x ∉ l2 -> l1 ++ x :: r1 = l2 ++ x :: r2 -> l1 = l2 /\ r1 = r2.
Proof.
  revert l2. induction l1 as [|a l1 IH]; intros [|b l2] H1 H2 H; simpl in H.
  - injection H as ->. auto.
  - injection H as -> _. exfalso. apply H2, elem_of_cons. by left.
  - injection H as -> _. exfalso. apply H1, elem_of_cons. by left.
  - injection H as -> H.
    destruct (IH l2) as [-> ->]; auto.
    + intros Hx. apply H1, elem_of_cons. by right.
    + intros Hx. apply H2, elem_of_cons. by right.
Qed.

(** Different users or different seconds give different job ids. *)
Lemma make_job_id_inj (u1 ts1 u2 ts2 : Z) :
  make_job_id u1 ts1 = make_job_id u2 ts2 -> u1 = u2 /\ ts1 = ts2.
Proof.
  unfold make_job_id. intros H.
  apply app_inv_head in H.
  change (lit "_") with [95%N] in H. simpl in H.
  apply split_first_unique in H as [Hu Ht];
    auto using str_of_int_no_underscore.
  split; by apply str_of_int_inj.
Qed.

Lemma make_job_id_nonempty (u ts : Z) : make_job_id u ts <> [].
Proof. unfold make_job_id. discriminate. Qed.

(** ** The reminders table *)

Lemma next_id_above (rows : list ReminderModel) (r : ReminderModel) :
  r ∈ rows -> id r < next_id rows.
Proof.
  unfold next_id. induction rows as [|a rows IH]; intros Hr.
  - by apply elem_of_nil in Hr.
  - rewrite fmap_cons. cbn [foldr].
    apply elem_of_cons in Hr as [-> | Hr]; [lia|].
    specialize (IH Hr). lia.
Qed.

Lemma next_id_fresh (rows : list ReminderModel) :
  next_id rows ∉ id <$> rows.
Proof.
  intros H. apply list_elem_of_fmap in H as (r & Hid & Hr).
  apply next_id_above in Hr. lia.
Qed.

Lemma insert_ok row rows row' rows' :
  insert row rows = Ok (row', rows') ->
  (job_id row ∉ job_id <$> rows) /\
  row' = {| id := next_id rows; user_id := user_id row;
            chat_id := chat_id row; text := text row;
            remind_time := remind_time row; created_at := created_at row;
            job_id := job_id row |} /\
  rows' = rows ++ [row'].
Proof.
  unfold insert. case_bool_decide as Hin; [discriminate|].
  intros [= <- <-]. auto.
Qed.

Lemma insert_fresh row rows :
  job_id row ∉ job_id <$> rows ->
  exists row', insert row rows = Ok (row', rows ++ [row'])
    /\ job_id row' = job_id row.
Proof.
  intros Hin. unfold insert. rewrite bool_decide_eq_false_2 by done.
  eexists. split; reflexivity.
Qed.

Lemma insert_duplicate row rows :
  job_id row ∈ job_id <$> rows -> insert row rows = Raise IntegrityError.
Proof.
  intros Hin. unfold insert. by rewrite bool_decide_eq_true_2.
Qed.

Lemma store_inv_nil : store_inv [].
Proof.
  repeat split; try constructor. intros r Hr. by apply elem_of_nil in Hr.
Qed.

Lemma store_inv_snoc rows row :
  store_inv rows -> id row ∉ id <$> rows -> job_id row ∉ job_id <$> rows ->
  job_id row <> [] -> store_inv (rows ++ [row]).
Proof.
  intros (Hid & Hjob & Hne) Hi Hj Hn. unfold store_inv.
  rewrite !fmap_app. simpl. repeat split.
  - apply NoDup_app. repeat split; [done | | apply NoDup_singleton].
    intros x Hx Hx'. apply list_elem_of_singleton in Hx'. by subst.
  - apply NoDup_app. repeat split; [done | | apply NoDup_singleton].
    intros x Hx Hx'. apply list_elem_of_singleton in Hx'. by subst.
  - intros r Hr. apply elem_of_app in Hr as [Hr | Hr]; [by apply Hne|].
    apply list_elem_of_singleton in Hr. by subst.
Qed.

Lemma store_inv_filter (P : ReminderModel -> Prop)
    `{!forall r, Decision (P r)} rows :
  store_inv rows -> store_inv (filter P rows).
Proof.
  intros (Hid & Hjob & Hne). repeat split.
  - eapply sublist_NoDup; [exact Hid|]. apply fmap_sublist, sublist_filter.
  - eapply sublist_NoDup; [exact Hjob|]. apply fmap_sublist, sublist_filter.
  - intros r Hr. apply list_elem_of_filter in Hr as [_ Hr]. by apply Hne.
Qed.

(** Rows of a table with unique job ids are told apart by their job id. *)
Lemma NoDup_fmap_eq {A B} (f : A -> B) (l : list A) (x y : A) :
  NoDup (f <$> l) -> x ∈ l -> y ∈ l -> f x = f y -> x = y.
Proof.
  induction l as [|a l IH]; simpl; intros Hnd Hx Hy Hf.
  - by apply elem_of_nil in Hx.
  - apply NoDup_cons in Hnd as [Ha Hnd].
    apply elem_of_cons in Hx as [-> | Hx];
      apply elem_of_cons in Hy as [-> | Hy]; auto.
    + exfalso. apply Ha. rewrite Hf. by apply list_elem_of_fmap_2.
    + exfalso. apply Ha. rewrite <- Hf. by apply list_elem_of_fmap_2.
Qed.

Lemma filter_none {A} (P : A -> Prop) `{!forall x, Decision (P x)}
    (l : list A) :
  (forall x, x ∈ l -> ~ P x) -> filter P l = [].
Proof.
  induction l as [|a l IH]; intros Hno; [done|].
  rewrite filter_cons_False by (apply Hno, elem_of_cons; by left).
  apply IH. intros x Hx. apply Hno, elem_of_cons. by right.
Qed.

Lemma filter_unique_key {A B} `{EqDecision B} (f : A -> B) (l : list A)
    (x : A) :
  NoDup (f <$> l) -> x ∈ l -> filter (fun y => f y = f x) l = [x].
Proof.
  induction l as [|a l IH]; intros Hnd Hx.
  - by apply elem_of_nil in Hx.
  - rewrite fmap_cons in Hnd. apply NoDup_cons in Hnd as [Ha Hnd].
    rewrite filter_cons.
    apply elem_of_cons in Hx as [<- | Hx].
    + rewrite decide_True by done. f_equal.
      apply filter_none. intros y Hy Hf.
      apply Ha. rewrite <- Hf. by apply list_elem_of_fmap_2.
    + rewrite decide_False; [by apply IH|].
      intros Hf. apply Ha. rewrite Hf. by apply list_elem_of_fmap_2.
Qed.

(** ** The scheduler and the service *)

Section ServiceFacts.

Variable arm_fails : str -> Job -> bool.

Lemma add_job_timers j job s k :
  timers (add_job arm_fails j job s).2 !! k =
    if arm_fails j job then timers s !! k
    else if decide (j = k) then Some job else timers s !! k.
Proof.
  unfold add_job. destruct (arm_fails j job); simpl; [done|].
  apply lookup_insert.
Qed.

Lemma restore_loop_other rs s j :
  j ∉ job_id <$> rs ->
  timers (restore_loop arm_fails rs s) !! j = timers s !! j.
Proof.
  revert s. induction rs as [|r rs IH]; intros s Hj; simpl; [done|].
  rewrite fmap_cons in Hj. apply not_elem_of_cons in Hj as [Hne Hj].
  rewrite IH by done. rewrite add_job_timers.
  destruct (arm_fails _ _); [done|]. by rewrite decide_False.
Qed.

(** A reminder of the list whose [add_job] goes through has its timer when
    the loop ends, whatever happened to the others. *)
Lemma restore_loop_armed rs s r :
  NoDup (job_id <$> rs) -> r ∈ rs ->
  arm_fails (job_id r) (job_of r) = false ->
  timers (restore_loop arm_fails rs s) !! job_id r = Some (job_of r).
Proof.
  revert s. induction rs as [|a rs IH]; intros s Hnd Hr Hok.
  - by apply elem_of_nil in Hr.
  - rewrite fmap_cons in Hnd. apply NoDup_cons in Hnd as [Ha Hnd].
    simpl. apply elem_of_cons in Hr as [-> | Hr]; [|by apply IH].
    rewrite restore_loop_other by done.
    rewrite add_job_timers, Hok. by rewrite decide_True.
Qed.

(** Every timer left by the loop was there before or belongs to a reminder
    of the list. *)
Lemma restore_loop_origin rs s j job :
  timers (restore_loop arm_fails rs s) !! j = Some job ->
  timers s !! j = Some job \/
  exists r, r ∈ rs /\ j = job_id r /\ job = job_of r
            /\ arm_fails j job = false.
Proof.
  revert s. induction rs as [|a rs IH]; intros s H; simpl in H; [by left|].
  apply IH in H as [H | (r & Hr & -> & -> & Hok)].
  - rewrite add_job_timers in H.
    destruct (arm_fails (job_id a) (job_of a)) eqn:Hf; [by left|].
    destruct (decide (job_id a = j)) as [<- | Hne]; [|by left].
    injection H as <-. right. exists a. repeat split; [|done].
    apply elem_of_cons. by left.
  - right. exists r. repeat split; [|done]. apply elem_of_cons. by right.
Qed.


(** What a successful [create_reminder] did. *)
Lemma create_reminder_ok ts dbn rc st row st' :
  create_reminder arm_fails ts dbn rc st = (Ok row, st') ->
  let j := make_job_id (rc_user_id rc) ts in
  (j ∉ job_id <$> db st) /\
  row = {| id := next_id (db st); user_id := rc_user_id rc;
           chat_id := rc_chat_id rc; text := rc_text rc;
           remind_time := wall (rc_remind_time rc); created_at := dbn;
           job_id := j |} /\
  db st' = db st ++ [row] /\
  timers (sched st') !! j
    = Some {| fire_time := Aware (rc_remind_time rc);
              payload := (rc_chat_id rc, rc_text rc) |}.
Proof.
  intros H. cbv zeta. unfold create_reminder in H.
  set (j := make_job_id (rc_user_id rc) ts) in *.
  destruct (insert _ (db st)) as [[row' rows] | e] eqn:Hins; [|discriminate].
  apply insert_ok in Hins as (Hfresh & -> & ->). simpl in *.
  unfold add_job in H. destruct (arm_fails j _); [discriminate|].
  injection H as <- <-. simpl. repeat split; try done.
  apply lookup_insert_eq.
Qed.

(** [create_reminder] goes through when the job id is new to the table and
    the scheduler takes the job. *)
Lemma create_reminder_fresh ts dbn rc st :
  let j := make_job_id (rc_user_id rc) ts in
  j ∉ job_id <$> db st ->
  arm_fails j {| fire_time := Aware (rc_remind_time rc);
                 payload := (rc_chat_id rc, rc_text rc) |} = false ->
  exists row st',
    create_reminder arm_fails ts dbn rc st = (Ok row, st')
    /\ job_id row = j /\ db st' = db st ++ [row].
Proof.
  intros j Hfresh Hok. unfold create_reminder. fold j.
  unfold insert. simpl. rewrite bool_decide_eq_false_2 by done.
  unfold add_job. rewrite Hok. simpl. eexists _, _. repeat split.
Qed.

Lemma create_reminder_store_inv ts dbn rc st :
  store_inv (db st) ->
  store_inv (db (create_reminder arm_fails ts dbn rc st).2).
Proof.
  intros Hinv. unfold create_reminder.
  destruct (insert _ (db st)) as [[row rows] | e] eqn:Hins; [|done].
  apply insert_ok in Hins as (Hfresh & -> & ->). simpl in Hfresh.
  assert (store_inv (db st ++
            [{| id := next_id (db st); user_id := rc_user_id rc;
                chat_id := rc_chat_id rc; text := rc_text rc;
                remind_time := wall (rc_remind_time rc); created_at := dbn;
                job_id := make_job_id (rc_user_id rc) ts |}]))
    by (apply store_inv_snoc; simpl;
        auto using next_id_fresh, make_job_id_nonempty).
  by destruct (add_job _ _ _ _) as [[] ?].
Qed.

End ServiceFacts.

Lemma delete_reminder_store_inv (st : State) (i : Z) :
  store_inv (db st) -> store_inv (db (delete_reminder i st).2).
Proof.
  intros Hinv. unfold delete_reminder.
  destruct (scalar_one_or_none _) as [[[|c j]|]|]; simpl; try done.
  by apply store_inv_filter.
Qed.

(** The invariant of the table holds in every state the program reaches. *)
Lemma reachable_store_inv (arm_fails : str -> Job -> bool) (st : State) :
  reachable arm_fails st -> store_inv (db st).
Proof.
  induction 1 as [| now ts dbn u c t rt st _ IH | i st _ IH
                  | now st _ IH | st _ IH]; simpl; try done.
  - apply store_inv_nil.
  - unfold create. destruct (ReminderCreate_init now u c t rt); [|done].
    by apply create_reminder_store_inv.
  - by apply delete_reminder_store_inv.
Qed.

(** ** Creation *)

(** C2 (as the code has it): the length test of [validate_text] looks at the
    text as given, not at the trimmed text.  With a future [remind_time], a
    request is built exactly when the given text has at most 500 characters,
    and it then carries the trimmed text; a text longer than 500 characters,
    and so any text whose trimmed length exceeds 500, is a validation error.
    A row stored by a create request holds the trimmed text.  A text that is
    blank after trimming is not rejected. *)
Theorem create_text_validation (arm_fails : str -> Job -> bool)
    (now ts dbn u c : Z) (t : str) (rt : aware) (st : State) :
  now < rt ->
  (len t <= 500 ->
     ReminderCreate_init now u c t rt =
       Ok {| rc_user_id := u; rc_chat_id := c; rc_text := strip t;
             rc_remind_time := rt |})
  /\ (500 < len t -> ReminderCreate_init now u c t rt = Raise ValueError)
  /\ (500 < len (strip t) ->
        create arm_fails now ts dbn u c t rt st = (Raise ValueError, st))
  /\ (forall row st',
        create arm_fails now ts dbn u c t rt st = (Ok row, st') ->
        len t <= 500 /\ text row = strip t /\ row ∈ db st').
Proof.
  intros Hrt. repeat split.
  - intros Hlen. unfold ReminderCreate_init.
    by rewrite validate_text_ok, validate_remind_time_future.
  - intros Hlen. unfold ReminderCreate_init.
    by rewrite validate_text_long.
  - intros Hlen. pose proof (len_strip t). unfold create, ReminderCreate_init.
    rewrite validate_text_long by lia. done.
  - unfold create in H.
    destruct (ReminderCreate_init now u c t rt) eqn:Hrc; [|discriminate].
    by apply ReminderCreate_init_ok in Hrc as (? & _).
  - unfold create in H.
    destruct (ReminderCreate_init now u c t rt) as [rc|] eqn:Hrc;
      [|discriminate].
    apply ReminderCreate_init_ok in Hrc as (_ & _ & ->).
    by apply create_reminder_ok in H as (_ & -> & _).
  - unfold create in H.
    destruct (ReminderCreate_init now u c t rt) as [rc|] eqn:Hrc;
      [|discriminate].
    apply create_reminder_ok in H as (_ & _ & -> & _).
    apply elem_of_app. right. apply list_elem_of_singleton. done.
Qed.

Lemma create_text_validation_witness :
  ReminderCreate_init 0 1 1 (lit "  buy milk ") (at_offset 0 10) =
    Ok {| rc_user_id := 1; rc_chat_id := 1; rc_text := lit "buy milk";
          rc_remind_time := at_offset 0 10 |}
  /\ ReminderCreate_init 0 1 1 (repeat 97%N 501) (at_offset 0 10) = Raise ValueError
  /\ create (fun _ _ => false) 0 100 0 1 1 (repeat 97%N 501) (at_offset 0 10) initial
       = (Raise ValueError, initial)
  /\ text {| id := 1; user_id := 1; chat_id := 1; text := lit "buy milk";
             remind_time := 10; created_at := 0;
             job_id := make_job_id 1 100 |} = strip (lit "  buy milk ").
Proof.
  pose proof (create_text_validation (fun _ _ => false) 0 100 0 1 1
                (lit "  buy milk ") (at_offset 0 10) initial ltac:(simpl; lia))
    as (Hshort & _ & _ & Hrow).
  pose proof (create_text_validation (fun _ _ => false) 0 100 0 1 1
                (repeat 97%N 501) (at_offset 0 10) initial
                ltac:(simpl; lia))
    as (_ & Hlong & Hstrip & _).
  split; [apply Hshort; vm_compute; discriminate|].
  split; [apply Hlong; vm_compute; reflexivity|].
  split; [apply Hstrip; vm_compute; reflexivity|].
  refine (proj1 (proj2 (Hrow _ (create (fun _ _ => false) 0 100 0 1 1
                                  (lit "  buy milk ") (at_offset 0 10)
                                  initial).2 _))).
  vm_compute. reflexivity.
Defined.

(** C2, as stated, fails: a blank text has trimmed length 0 and is accepted
    (stored as the empty string), and a text of 500 characters followed by a
    space has trimmed length 500 and is rejected. *)
Lemma validate_text_not_on_trimmed_length :
  (len (strip (lit "   ")) = 0
   /\ ReminderCreate_init 0 1 1 (lit "   ") (at_offset 0 10) =
        Ok {| rc_user_id := 1; rc_chat_id := 1; rc_text := [];
              rc_remind_time := at_offset 0 10 |})
  /\ (len (strip (repeat 97%N 500 ++ [32%N])) = 500
      /\ ReminderCreate_init 0 1 1 (repeat 97%N 500 ++ [32%N]) (at_offset 0 10)
           = Raise ValueError).
Proof. vm_compute. repeat split. Qed.

(** C3: a create request whose [remind_time] is not after the current time
    fails with a validation error and leaves the table and the scheduler as
    they were; a [remind_time] strictly in the future passes the check. *)
Theorem create_rejects_past_time (arm_fails : str -> Job -> bool)
    (now ts dbn u c : Z) (t : str) (rt : aware) (st : State) :
  (rt <= now ->
     create arm_fails now ts dbn u c t rt st = (Raise ValueError, st))
  /\ (now < rt -> validate_remind_time now rt = Ok rt).
Proof.
  split.
  - intros Hrt. unfold create, ReminderCreate_init.
    rewrite validate_remind_time_past by done.
    by destruct (validate_text t).
  - apply validate_remind_time_future.
Qed.

Lemma create_rejects_past_time_witness :
  create (fun _ _ => false) 1000 1 1000 1 1 (lit "buy milk") (at_offset 0 999) initial
    = (Raise ValueError, initial)
  /\ validate_remind_time 1000 (at_offset 0 1001) = Ok (at_offset 0 1001).
Proof.
  split.
  - apply (create_rejects_past_time (fun _ _ => false) 1000 1 1000 1 1
             (lit "buy milk") (at_offset 0 999) initial). simpl. lia.
  - apply (create_rejects_past_time (fun _ _ => false) 1000 1 1000 1 1
             (lit "buy milk") (at_offset 0 1001) initial). simpl. lia.
Defined.

(** C4 (as the code has it): a create request that succeeds appends a row
    whose [job_id], [reminder_<user_id>_<second>], differs from the [job_id]
    of every row already in the table; two requests of one user made in
    different clock seconds, with valid inputs, job ids new to the table and
    a scheduler that takes the jobs, both succeed, with different job ids. *)
Theorem create_assigns_unique_job_id (arm_fails : str -> Job -> bool)
    (st : State) :
  (forall now ts dbn u c t rt row st',
     create arm_fails now ts dbn u c t rt st = (Ok row, st') ->
     job_id row = make_job_id u ts /\ db st' = db st ++ [row]
     /\ forall r', r' ∈ db st -> job_id r' <> job_id row)
  /\ (forall u now1 ts1 dbn1 c1 t1 (rt1 : aware) now2 ts2 dbn2 c2 t2
             (rt2 : aware),
        ts1 <> ts2 ->
        len t1 <= 500 -> now1 < rt1 -> len t2 <= 500 -> now2 < rt2 ->
        make_job_id u ts1 ∉ job_id <$> db st ->
        make_job_id u ts2 ∉ job_id <$> db st ->
        (forall j job, arm_fails j job = false) ->
        exists row1 st1 row2 st2,
          create arm_fails now1 ts1 dbn1 u c1 t1 rt1 st = (Ok row1, st1)
          /\ create arm_fails now2 ts2 dbn2 u c2 t2 rt2 st1 = (Ok row2, st2)
          /\ job_id row1 <> job_id row2).
Proof.
  split.
  - intros now ts dbn u c t rt row st' H. unfold create in H.
    destruct (ReminderCreate_init now u c t rt) as [rc|] eqn:Hrc;
      [|discriminate].
    apply ReminderCreate_init_ok in Hrc as (_ & _ & ->).
    apply create_reminder_ok in H as (Hfresh & -> & -> & _). simpl in *.
    repeat split. intros r' Hr' Heq. apply Hfresh. rewrite <- Heq.
    by apply list_elem_of_fmap_2.
  - intros u now1 ts1 dbn1 c1 t1 rt1 now2 ts2 dbn2 c2 t2 rt2
      Hts Hl1 Hr1 Hl2 Hr2 Hf1 Hf2 Harm.
    assert (Hne : make_job_id u ts1 <> make_job_id u ts2)
      by (intros Heq; apply make_job_id_inj in Heq as [_ Heq]; done).
    unfold create, ReminderCreate_init.
    rewrite !validate_text_ok, !validate_remind_time_future by done.
    destruct (create_reminder_fresh arm_fails ts1 dbn1
                {| rc_user_id := u; rc_chat_id := c1; rc_text := strip t1;
                   rc_remind_time := rt1 |} st)
      as (row1 & st1 & H1 & Hj1 & Hdb1); [done | apply Harm |].
    simpl in Hj1.
    destruct (create_reminder_fresh arm_fails ts2 dbn2
                {| rc_user_id := u; rc_chat_id := c2; rc_text := strip t2;
                   rc_remind_time := rt2 |} st1)
      as (row2 & st2 & H2 & Hj2 & Hdb2); [| apply Harm |].
    { simpl. rewrite Hdb1, fmap_app. simpl.
      intros Hin. apply elem_of_app in Hin as [Hin | Hin]; [done|].
      apply list_elem_of_singleton in Hin. congruence. }
    simpl in Hj2. exists row1, st1, row2, st2.
    repeat split; [done | done | congruence].
Qed.

Lemma create_assigns_unique_job_id_witness :
  (forall r', r' ∈ db initial -> job_id r' <> make_job_id 7 100)
  /\ exists row1 st1 row2 st2,
    create (fun _ _ => false) 0 100 0 7 7 (lit "a") (at_offset 0 50) initial = (Ok row1, st1)
    /\ create (fun _ _ => false) 0 101 0 7 7 (lit "b") (at_offset 0 60) st1 = (Ok row2, st2)
    /\ job_id row1 <> job_id row2.
Proof.
  destruct (create_assigns_unique_job_id (fun _ _ => false) initial)
    as [Hone Htwo].
  split.
  - refine (proj2 (proj2 (Hone 0 100 0 7 7 (lit "a") (at_offset 0 50)
              {| id := 1; user_id := 7; chat_id := 7; text := lit "a";
                 remind_time := 50; created_at := 0;
                 job_id := make_job_id 7 100 |}
              (create (fun _ _ => false) 0 100 0 7 7 (lit "a") (at_offset 0 50) initial).2
              _))).
    vm_compute. reflexivity.
  - refine (Htwo 7 0 100 0 7 (lit "a") (at_offset 0 50) 0 101 0 7 (lit "b")
              (at_offset 0 60)
              _ _ _ _ _ _ _ _).
    + lia.
    + vm_compute. discriminate.
    + simpl. lia.
    + vm_compute. discriminate.
    + simpl. lia.
    + simpl. apply not_elem_of_nil.
    + simpl. apply not_elem_of_nil.
    + reflexivity.
Defined.

(** C4, as stated, fails: a second request of the same user within the same
    clock second gets the same job id and is refused by the table. *)
Lemma create_same_second_collides :
  let st1 :=
    (create (fun _ _ => false) 0 100 0 7 7 (lit "a") (at_offset 0 50) initial).2 in
  is_ok (create (fun _ _ => false) 0 100 0 7 7 (lit "a") (at_offset 0 50) initial).1 = true
  /\ (create (fun _ _ => false) 0 100 0 7 7 (lit "b") (at_offset 0 60) st1).1
       = Raise IntegrityError.
Proof. vm_compute. split; reflexivity. Qed.

(** ** Reconciliation *)

(** The timers [restore_reminders] leaves belong to reminders it selected. *)
Lemma restore_reminders_origin_aux (arm_fails : str -> Job -> bool) (now : Z)
    (st : State) (j : str) (job : Job) :
  timers (sched (restore_reminders arm_fails now st).2) !! j = Some job ->
  exists r, r ∈ filter (fun r => now < remind_time r) (db st)
            /\ j = job_id r /\ job = job_of r.
Proof.
  intros H. simpl in H.
  apply restore_loop_origin in H as [H | (r & Hr & -> & -> & _)].
  - simpl in H. by rewrite lookup_empty in H.
  - by exists r.
Qed.

(** C8: the [remove_all_jobs] step that opens [restore_reminders] leaves no
    in-memory timer and leaves the durable JobStore as it was. *)
Theorem remove_all_jobs_keeps_jobstore (s : Scheduler) :
  timers (remove_all_jobs s) = ∅
  /\ jobstore (remove_all_jobs s) = jobstore s
  /\ (forall j, get_job j (remove_all_jobs s) = None)
  /\ forall arm_fails now rows,
       sched (restore_reminders arm_fails now {| db := rows; sched := s |}).2
       = restore_loop arm_fails (filter (fun r => now < remind_time r) rows)
           (remove_all_jobs s).
Proof.
  split; [reflexivity | split; [reflexivity|]]. split; [|reflexivity].
  intros j. unfold get_job, remove_all_jobs. apply lookup_empty.
Qed.



(** C1 (as the code has it): [restore_reminders] selects the reminders with
    [remind_time] strictly after [now]; a reminder of the table whose
    [remind_time] is not after [now] has no timer under its [job_id] when
    [restore_reminders] returns. *)
Theorem restore_reminders_skips_elapsed (arm_fails : str -> Job -> bool)
    (now : Z) (st : State) (r : ReminderModel) :
  store_inv (db st) -> r ∈ db st -> remind_time r <= now ->
  timers (sched (restore_reminders arm_fails now st).2) !! job_id r = None.
Proof.
  intros Hinv Hr Hpast.
  destruct (timers _ !! job_id r) as [job|] eqn:H; [|done]. exfalso.
  apply (restore_reminders_origin_aux arm_fails) in H.
  destruct H as (r' & Hr' & Hj & _).
  apply list_elem_of_filter in Hr' as [Hfut Hr'].
  destruct Hinv as (_ & Hjob & _).
  assert (r = r') by (eapply NoDup_fmap_eq; eauto). subst r'. lia.
Qed.

Lemma restore_reminders_skips_elapsed_witness :
  let r := {| id := 1; user_id := 7; chat_id := 7; text := lit "a";
              remind_time := 5; created_at := 0;
              job_id := make_job_id 7 100 |} in
  let st := {| db := [r]; sched := Sched.empty |} in
  timers (sched (restore_reminders (fun _ _ => false) 10 st).2) !! job_id r
    = None.
Proof.
  intros r st.
  apply (restore_reminders_skips_elapsed (fun _ _ => false) 10 st r).
  - repeat split.
    + apply (bool_decide_unpack _). vm_compute. exact I.
    + apply (bool_decide_unpack _). vm_compute. exact I.
    + intros r' Hr'. apply list_elem_of_singleton in Hr' as ->. discriminate.
  - apply list_elem_of_singleton. reflexivity.
  - simpl. lia.
Defined.

(** C1, as stated, fails: a stored reminder whose [remind_time] has passed
    is not armed by [restore_reminders], with or without a timer before. *)
Lemma restore_reminders_drops_elapsed :
  let r := {| id := 1; user_id := 7; chat_id := 7; text := lit "a";
              remind_time := 5; created_at := 0;
              job_id := make_job_id 7 100 |} in
  let st := {| db := [r]; sched := Sched.empty |} in
  r ∈ db st /\ remind_time r < 10
  /\ get_job (job_id r)
       (sched (restore_reminders (fun _ _ => false) 10 st).2) = None.
Proof.
  intros r st. split; [apply list_elem_of_singleton; reflexivity|].
  split; [simpl; lia|]. vm_compute. reflexivity.
Qed.

(** ** Listing *)

#[local] Instance by_time_total : Total by_time.
Proof. intros a b. unfold by_time. lia. Qed.

#[local] Instance by_time_trans : Transitive by_time.
Proof. intros a b c. unfold by_time. lia. Qed.

(** C6: [get_user_reminders] returns the rows of the user whose
    [remind_time] is strictly after [now], each as often as the table holds
    it, in ascending order of [remind_time], and the state is as before. *)
Theorem get_user_reminders_spec (now u : Z) (st : State) :
  let res := (get_user_reminders now u st).1 in
  (get_user_reminders now u st).2 = st
  /\ res ≡ₚ filter (fun r => user_id r = u /\ now < remind_time r) (db st)
  /\ (forall r, r ∈ res <-> r ∈ db st /\ user_id r = u /\ now < remind_time r)
  /\ StronglySorted (fun a b => remind_time a <= remind_time b) res.
Proof.
  simpl. split; [reflexivity|].
  assert (Hperm : merge_sort by_time
                    (filter (fun r => now < remind_time r)
                       (filter (fun r => user_id r = u) (db st)))
                  ≡ₚ filter (fun r => user_id r = u /\ now < remind_time r)
                       (db st)).
  { rewrite merge_sort_Permutation, list_filter_filter.
    erewrite list_filter_iff; [reflexivity|]. intros r. simpl. tauto. }
  split; [exact Hperm|]. split.
  - intros r. rewrite Hperm, list_elem_of_filter. tauto.
  - apply (StronglySorted_merge_sort by_time).
Qed.

(** ** Deletion *)

Lemma delete_reminder_present (st : State) (r : ReminderModel) :
  store_inv (db st) -> r ∈ db st ->
  delete_reminder (id r) st =
    (Ok true, {| db := filter (fun r' => id r' <> id r) (db st);
                 sched := (remove_job (job_id r) (sched st)).2 |}).
Proof.
  intros (Hid & _ & Hne) Hr. unfold delete_reminder.
  rewrite (filter_unique_key id) by done. simpl.
  specialize (Hne r Hr). by destruct (job_id r).
Qed.

Lemma delete_reminder_absent (st : State) (i : Z) :
  (forall r, r ∈ db st -> id r <> i) -> delete_reminder i st = (Ok false, st).
Proof.
  intros Habs. unfold delete_reminder.
  by rewrite (filter_none (fun r => id r = i)).
Qed.

(** C7: deleting a stored reminder twice answers [True], then [False],
    without raising; after the first call no row has that id, so no listing
    shows it, and the second call changes nothing. *)
Theorem delete_reminder_twice (st : State) (r : ReminderModel) :
  store_inv (db st) -> r ∈ db st ->
  let d1 := delete_reminder (id r) st in
  let d2 := delete_reminder (id r) d1.2 in
  d1.1 = Ok true /\ d2.1 = Ok false
  /\ (forall r', r' ∈ db d1.2 -> id r' <> id r)
  /\ (forall now u r', r' ∈ (get_user_reminders now u d1.2).1 ->
        id r' <> id r)
  /\ d2.2 = d1.2.
Proof.
  intros Hinv Hr d1 d2. subst d2 d1.
  rewrite delete_reminder_present by done. simpl.
  assert (Hgone : forall r',
            r' ∈ filter (fun r' => id r' <> id r) (db st) -> id r' <> id r)
    by (intros r' Hr'; by apply list_elem_of_filter in Hr' as [? _]).
  rewrite delete_reminder_absent by exact Hgone. simpl.
  repeat split; try done.
  intros now u r' Hr'.
  rewrite merge_sort_Permutation in Hr'.
  apply list_elem_of_filter in Hr' as [_ Hr'].
  apply list_elem_of_filter in Hr' as [_ Hr']. by apply Hgone.
Qed.

Lemma delete_reminder_twice_witness :
  let r := {| id := 1; user_id := 7; chat_id := 7; text := lit "a";
              remind_time := 50; created_at := 0;
              job_id := make_job_id 7 100 |} in
  let st := {| db := [r]; sched := Sched.empty |} in
  (delete_reminder 1 st).1 = Ok true
  /\ (delete_reminder 1 (delete_reminder 1 st).2).1 = Ok false.
Proof.
  intros r st.
  assert (Hinv : store_inv (db st)).
  { repeat split.
    + apply (bool_decide_unpack _). vm_compute. exact I.
    + apply (bool_decide_unpack _). vm_compute. exact I.
    + intros r' Hr'. apply list_elem_of_singleton in Hr' as ->. discriminate. }
  assert (Hr : r ∈ db st) by (apply list_elem_of_singleton; reflexivity).
  split.
  - exact (proj1 (delete_reminder_twice st r Hinv Hr)).
  - exact (proj1 (proj2 (delete_reminder_twice st r Hinv Hr))).
Defined.

(** ** Parsing *)

Lemma raises_within_bind {A B} (allowed : exn -> bool) (r : result A)
    (k : A -> result B) :
  raises_within allowed r -> (forall a, raises_within allowed (k a)) ->
  raises_within allowed (r ≫= k).
Proof. destruct r as [a | e]; simpl; auto. Qed.

Lemma index_raises {A} (l : list A) (i : nat) :
  raises_within parse_errors (index l i).
Proof. unfold index. by destruct (l !! i). Qed.

Lemma int_of_str_raises (s : str) : raises_within parse_errors (int_of_str s).
Proof.
  unfold int_of_str.
  destruct (match strip s with
            | 45%N :: r => (true, r)
            | 43%N :: r => (false, r)
            | _ => (false, strip s)
            end) as [neg ds].
  by destruct (int_digits ds 0 false).
Qed.

Lemma timedelta_of_seconds_raises (secs : Z) :
  raises_within parse_errors (timedelta_of_seconds secs).
Proof. unfold timedelta_of_seconds. by destruct (_ && _). Qed.

Lemma datetime_add_raises (dt : datetime) (td : timedelta) :
  raises_within parse_errors (datetime_add dt td).
Proof. unfold datetime_add. by destruct (_ && _). Qed.

Lemma date_add_days_raises (d n : Z) :
  raises_within parse_errors (date_add_days d n).
Proof.
  unfold date_add_days, timedelta_days.
  apply raises_within_bind; [apply timedelta_of_seconds_raises|].
  intros td. by destruct (_ && _).
Qed.

Lemma combine_replace_raises (date h m : Z) :
  raises_within parse_errors (combine_replace date h m).
Proof.
  unfold combine_replace.
  destruct (negb (fits_C_int h && fits_C_int m)); [done|].
  destruct (negb ((0 <=? h) && (h <=? 23))); [done|].
  by destruct (negb ((0 <=? m) && (m <=? 59))).
Qed.

Lemma unpack_two_ints_raises (parts : list str) :
  raises_within parse_errors (unpack_two_ints parts).
Proof.
  destruct parts as [|a [|b [|c parts]]]; try done. simpl.
  apply raises_within_bind; [apply int_of_str_raises|]. intros h.
  apply raises_within_bind; [apply int_of_str_raises|]. done.
Qed.

Create HintDb parser.

#[local] Hint Resolve index_raises int_of_str_raises
  timedelta_of_seconds_raises datetime_add_raises date_add_days_raises
  combine_replace_raises unpack_two_ints_raises : parser.

Section ParserFacts.

Variable strptime : str -> format -> result datetime.

(** [strptime] signals a text that does not match with a [ValueError]. *)
Hypothesis strptime_raises :
  forall text fmt, raises_within parse_errors (strptime text fmt).

Lemma _parse_relative_raises (text : str) (now : datetime) :
  raises_within parse_errors (_parse_relative text now).
Proof.
  unfold _parse_relative, timedelta_minutes, timedelta_hours, timedelta_days.
  repeat (apply raises_within_bind; [auto with parser|]; intros ?).
  apply raises_within_bind; [|auto with parser].
  repeat (destruct (any_in _ _); [auto with parser|]). done.
Qed.

Lemma _parse_absolute_raises (text : str) (now : datetime) :
  raises_within parse_errors (_parse_absolute text now).
Proof.
  unfold _parse_absolute.
  apply raises_within_bind.
  - destruct (contains (lit "завтра") text).
    + repeat (apply raises_within_bind; [auto with parser|]; intros ?). done.
    + apply raises_within_bind; [|done].
      destruct (contains _ text); [auto with parser | done].
  - intros [date time_part]. apply raises_within_bind.
    + destruct (contains _ time_part); [auto with parser|].
      apply raises_within_bind; [auto with parser | done].
    + intros [hours minutes]. auto with parser.
Qed.

Lemma try_formats_raises (fmts : list format) (text : str) (now : datetime) :
  raises_within parse_errors (try_formats strptime fmts text now).
Proof.
  induction fmts as [|fmt fmts IH]; simpl; [done|].
  pose proof (strptime_raises text fmt) as Hs.
  destruct (strptime text fmt) as [dt | e]; [by destruct fmt|].
  by destruct e.
Qed.

(** Apart from an [OverflowError], [parse] returns. *)
Lemma parse_raises_only_overflow (now : datetime) (input_str : str) :
  raises_within only_overflow
    (parse strptime now input_str).
Proof.
  unfold parse.
  set (s := strip (lower input_str)).
  assert (Hr : raises_within parse_errors
                 (if startswith s (lit "через")
                  then _parse_relative s now
                  else if contains (lit "в ") s
                       then _parse_absolute s now
                       else _parse_datetime strptime s now)).
  { destruct (startswith _ _); [apply _parse_relative_raises|].
    destruct (contains _ _); [apply _parse_absolute_raises|].
    apply try_formats_raises. }
  destruct (if startswith _ _ then _ else _) as [dt | e]; [done|].
  by destruct e.
Qed.

End ParserFacts.

Example parse_relative_minutes (strptime : str -> format -> result datetime) :
  parse strptime
    {| ordinal := 739925; hour := 23; minute := 58; second := 7;
       microsecond := 0 |} (lit " Через 5 минут")
  = Ok (Some {| ordinal := 739926; hour := 0; minute := 3; second := 7;
                microsecond := 0 |}).
Proof. reflexivity. Qed.

Example parse_tomorrow_at (strptime : str -> format -> result datetime) :
  parse strptime
    {| ordinal := 739925; hour := 12; minute := 0; second := 0;
       microsecond := 0 |} (lit "завтра в 15:00")
  = Ok (Some {| ordinal := 739926; hour := 15; minute := 0; second := 0;
                microsecond := 0 |}).
Proof. reflexivity. Qed.

Example parse_hour_out_of_range
    (strptime : str -> format -> result datetime) (now : datetime) :
  parse strptime now (lit "в 25:00") = Ok None
  /\ parse strptime now (lit "через много минут") = Ok None
  /\ parse strptime now (lit "через 5") = Ok None.
Proof. repeat split. Qed.

(** C9 at two inputs: an amount of days no [timedelta] can hold, and an hour
    that does not fit a C [int], make [parse] end with an [OverflowError],
    which its [except (ValueError, IndexError)] lets through; [ValueError]
    and [IndexError] themselves never leave [parse]. *)
Theorem parse_lets_overflow_through
    (strptime : str -> format -> result datetime) (now : datetime) :
  parse strptime now (lit "через 1000000000 день") = Raise OverflowError
  /\ parse strptime now (lit "в 99999999999999999999") = Raise OverflowError
  /\ forall input_str,
       parse strptime now input_str <> Raise ValueError
       /\ parse strptime now input_str <> Raise IndexError.
Proof.
  split; [reflexivity|]. split; [reflexivity|].
  intros input_str. unfold parse.
  destruct (if startswith _ _ then _ else _) as [dt | []];
    split; discriminate.
Qed.

(** ** Delivery *)

Section DeliveryFacts.

Variable transport : nat -> Z -> str -> result unit.

(** [send_reminder] lets no [Exception] out. *)
Lemma send_reminder_cases (chat_id : Z) (text : str) (w : World) :
  (send_reminder transport chat_id text w).1 = Ok tt
  \/ exists e, (send_reminder transport chat_id text w).1 = Raise e
               /\ is_Exception e = false.
Proof.
  unfold send_reminder, send_message.
  destruct (transport _ _ _) as [[] | e]; [by left|].
  destruct (is_Exception e) eqn:He; [by left|].
  right. by exists e.
Qed.

Lemma send_reminder_sent (chat_id : Z) (text : str) (w : World) :
  sent (send_reminder transport chat_id text w).2 =
    sent w ++ [(chat_id, lit "⏰ Напоминание: " ++ text)].
Proof.
  unfold send_reminder, send_message.
  destruct (transport _ _ _) as [[] | e]; [done|].
  by destruct (is_Exception e).
Qed.

End DeliveryFacts.

(** C10: with [max_retries >= 1], [send_reminder_with_retry] ends as one call
    of [send_reminder] does, result, messages and log alike: the message is
    handed to the transport once and no second attempt is made. *)
Theorem send_reminder_with_retry_single
    (transport : nat -> Z -> str -> result unit)
    (chat_id : Z) (text : str) (max_retries : Z) (w : World) :
  1 <= max_retries ->
  send_reminder_with_retry transport chat_id text max_retries w
    = send_reminder transport chat_id text w
  /\ sent (send_reminder_with_retry transport chat_id text max_retries w).2
     = sent w ++ [(chat_id, lit "⏰ Напоминание: " ++ text)].
Proof.
  intros Hmax.
  assert (Heq : send_reminder_with_retry transport chat_id text max_retries w
                = send_reminder transport chat_id text w).
  { unfold send_reminder_with_retry.
    rewrite seqZ_cons by lia. cbn [retry_loop].
    destruct (send_reminder_cases transport chat_id text w)
      as [Hok | (e & He & Hbase)];
      destruct (send_reminder transport chat_id text w) as [[[] | e'] w'];
      simpl in *; try discriminate; [reflexivity|].
    injection He as ->. by rewrite Hbase. }
  split; [exact Heq|].
  rewrite Heq. apply send_reminder_sent.
Qed.

Lemma send_reminder_with_retry_single_witness :
  send_reminder_with_retry (fun _ _ _ => Raise TransportError) 7 (lit "a") 3
    {| sent := []; log := [] |}
  = send_reminder (fun _ _ _ => Raise TransportError) 7 (lit "a")
      {| sent := []; log := [] |}.
Proof.
  refine (proj1 (send_reminder_with_retry_single
                   (fun _ _ _ => Raise TransportError) 7 (lit "a") 3
                   {| sent := []; log := [] |} _)).
  lia.
Defined.

(** * Further properties *)

(** ** Decimal numerals *)

Lemma lstrip_no_space (s : str) :
  Forall (fun c => isspace c = false) s -> lstrip s = s.
Proof. destruct 1 as [|c r Hc _]; simpl; [done | by rewrite Hc]. Qed.

Lemma strip_no_space (s : str) :
  Forall (fun c => isspace c = false) s -> strip s = s.
Proof.
  intros H. unfold strip, rstrip.
  rewrite (lstrip_no_space s H), lstrip_no_space, rev_involutive; [done|].
  apply Forall_forall. intros c Hc.
  rewrite list_elem_of_In, <- in_rev, <- list_elem_of_In in Hc.
  revert c Hc. by apply Forall_forall.
Qed.

Lemma digits_of_uint_ascii (d : Decimal.uint) (c : N) :
  c ∈ digits_of_uint d -> (48 <= c <= 57)%N.
Proof.
  induction d; simpl; intros Hc;
    try (apply elem_of_cons in Hc as [-> | Hc]; [lia | auto]).
  apply elem_of_nil in Hc. contradiction.
Qed.

Lemma str_of_int_ascii (n : Z) (c : N) :
  c ∈ str_of_int n -> c = 45%N \/ (48 <= c <= 57)%N.
Proof.
  unfold str_of_int. destruct (Z.to_int n) as [d | d]; intros Hc.
  - right. by eapply digits_of_uint_ascii.
  - apply elem_of_cons in Hc as [-> | Hc]; [by left|].
    right. by eapply digits_of_uint_ascii.
Qed.

Lemma str_of_int_no_space (n : Z) :
  Forall (fun c => isspace c = false) (str_of_int n).
Proof.
  apply Forall_forall. intros c Hc.
  apply str_of_int_ascii in Hc as [-> | Hc]; [reflexivity|].
  unfold isspace.
  repeat match goal with
         | |- context [(?a <=? c)%N] =>
           destruct (N.leb_spec a c); try lia
         | |- context [(c <=? ?a)%N] =>
           destruct (N.leb_spec c a); try lia
         | |- context [(c =? ?a)%N] =>
           destruct (N.eqb_spec c a); try lia
         end; reflexivity.
Qed.

Lemma of_uint_acc_value (d : Decimal.uint) (p : positive) :
  Z.pos (Pos.of_uint_acc d p)
  = Z.pos p * 10 ^ Z.of_nat (Decimal.nb_digits d) + Z.of_N (Pos.of_uint d).
Proof.
  revert p. induction d; intros p;
    cbn [Pos.of_uint_acc Pos.of_uint Decimal.nb_digits];
    rewrite ?Nat2Z.inj_succ, ?Z.pow_succ_r by lia;
    try (rewrite IHd; cbn [Z.of_N]; try rewrite (IHd 1%positive);
         try rewrite (IHd 2%positive); try rewrite (IHd 3%positive);
         try rewrite (IHd 4%positive); try rewrite (IHd 5%positive);
         try rewrite (IHd 6%positive); try rewrite (IHd 7%positive);
         try rewrite (IHd 8%positive); try rewrite (IHd 9%positive); lia).
  simpl. lia.
Qed.

Lemma int_digits_cons_digit (c : N) (d : Z) (r : str) (acc : Z) (b : bool) :
  digit_value c = Some d ->
  int_digits (c :: r) acc b = int_digits r (10 * acc + d) true.
Proof. intros H. cbn [int_digits]. by rewrite H. Qed.

(** Reading the digits of a numeral back gives its value. *)
Lemma int_digits_digits (d : Decimal.uint) (acc : Z) (b : bool) :
  d <> Decimal.Nil \/ b = true ->
  int_digits (digits_of_uint d) acc b
  = Some (acc * 10 ^ Z.of_nat (Decimal.nb_digits d) + Z.of_N (Pos.of_uint d)).
Proof.
  revert acc b. induction d; intros acc b Hne;
    cbn [digits_of_uint Pos.of_uint Decimal.nb_digits];
    rewrite ?Nat2Z.inj_succ, ?Z.pow_succ_r by lia;
    try (erewrite int_digits_cons_digit by reflexivity;
         rewrite IHd by (by right); cbn [Z.of_N];
         rewrite ?of_uint_acc_value; f_equal;
         set (k := 10 ^ Z.of_nat (Decimal.nb_digits d));
         lia).
  destruct Hne as [Hne | ->]; [done|]. simpl. f_equal. lia.
Qed.

Lemma to_int_digits_nonnil (n : Z) :
  match Z.to_int n with
  | Decimal.Pos d | Decimal.Neg d => d <> Decimal.Nil
  end.
Proof.
  destruct n; simpl; [discriminate | |];
    apply DecimalPos.Unsigned.to_uint_nonnil.
Qed.

(** [int(str(n)) == n] *)
Lemma int_of_str_of_int (n : Z) : int_of_str (str_of_int n) = Ok n.
Proof.
  unfold int_of_str. rewrite strip_no_space by apply str_of_int_no_space.
  pose proof (to_int_digits_nonnil n) as Hnn.
  pose proof (DecimalZ.of_to n) as Hval.
  unfold str_of_int. destruct (Z.to_int n) as [d | d].
  - assert (Hm : match digits_of_uint d with
                 | 45%N :: r => (true, r)
                 | 43%N :: r => (false, r)
                 | _ => (false, digits_of_uint d)
                 end = (false, digits_of_uint d))
      by (by destruct d).
    rewrite Hm, int_digits_digits by (by left).
    simpl in Hval. unfold Z.of_uint in Hval. rewrite Hval. f_equal; lia.
  - rewrite int_digits_digits by (by left).
    simpl in Hval. unfold Z.of_uint in Hval. f_equal; lia.
Qed.

(** ** Delete buttons *)

Lemma split_sep_go_no_sep (c : N) (s cur : str) :
  c ∉ s -> split_sep_go [c] s cur 0 = [rev cur ++ s].
Proof.
  revert cur. induction s as [|a s IH]; intros cur Hc.
  - simpl. by rewrite app_nil_r.
  - apply not_elem_of_cons in Hc as [Hne Hc].
    cbn [split_sep_go startswith].
    destruct (N.eqb_spec c a) as [-> | _]; [done|]. cbn [andb].
    rewrite IH by done. simpl. by rewrite <- app_assoc.
Qed.

Lemma startswith_nil (s : str) : startswith s [] = true.
Proof. by destruct s. Qed.

Lemma startswith_app (p s : str) : startswith (p ++ s) p = true.
Proof.
  induction p as [|a p IH]; [apply startswith_nil|].
  simpl. by rewrite N.eqb_refl.
Qed.

Lemma reminder_id_of_delete_data (n : Z) :
  reminder_id_of_data (lit "delete_" ++ str_of_int n) = Ok n.
Proof.
  unfold reminder_id_of_data, split_sep.
  replace (lit "delete_") with [100; 101; 108; 101; 116; 101; 95]%N
    by reflexivity.
  replace (lit "_") with [95%N] by reflexivity.
  cbn [app split_sep_go startswith N.eqb Pos.eqb andb length Nat.pred].
  rewrite startswith_nil.
  rewrite split_sep_go_no_sep by apply str_of_int_no_underscore.
  simpl. apply int_of_str_of_int.
Qed.

(** X1: the callback data of the button [reminders_list] makes for a
    reminder is accepted by the filter of the delete handler and by no other
    filter, and [handle_delete_reminder] reads the id of the reminder back
    from it. *)
Theorem delete_button_round_trip (strftime : str -> Z -> str)
    (r : ReminderModel) :
  let data := callback_data (reminder_button strftime r) in
  reminder_id_of_data data = Ok (id r)
  /\ is_delete data = true
  /\ is_create data = false /\ is_list data = false
  /\ is_cancel data = false.
Proof.
  cbn [reminder_button callback_data].
  split; [apply reminder_id_of_delete_data|].
  split; [apply startswith_app|].
  unfold is_create, is_list, is_cancel.
  repeat split; apply bool_decide_eq_false_2; discriminate.
Qed.

(** ** Trimmed texts *)

Lemma lstrip_lstrip (s : str) : lstrip (lstrip s) = lstrip s.
Proof.
  induction s as [|c r IH]; [done|]. simpl.
  destruct (isspace c) eqn:Hc; [done|]. simpl. by rewrite Hc.
Qed.

Lemma lstrip_snoc (s : str) (c : N) :
  isspace c = false -> lstrip (s ++ [c]) = lstrip s ++ [c].
Proof.
  intros Hc. induction s as [|a s IH]; simpl; [by rewrite Hc|].
  by destruct (isspace a).
Qed.

Lemma rstrip_cons (c : N) (r : str) :
  isspace c = false -> rstrip (c :: r) = c :: rstrip r.
Proof.
  intros Hc. unfold rstrip. simpl.
  by rewrite lstrip_snoc, rev_app_distr.
Qed.

Lemma rstrip_rstrip (s : str) : rstrip (rstrip s) = rstrip s.
Proof. unfold rstrip. by rewrite rev_involutive, lstrip_lstrip. Qed.

(** [s.strip().strip() == s.strip()] *)
Lemma strip_strip (s : str) : strip (strip s) = strip s.
Proof.
  unfold strip at 2 3.
  destruct (lstrip s) as [|c r] eqn:Hl; [done|].
  assert (Hc : isspace c = false).
  { clear -Hl. induction s as [|a s IH]; [done|]. simpl in Hl.
    destruct (isspace a) eqn:Ha; [auto|]. by injection Hl as <- _. }
  rewrite rstrip_cons by done. unfold strip. simpl. rewrite Hc.
  by rewrite rstrip_cons, rstrip_rstrip.
Qed.

(** X2: a text [validate_text] accepts comes out trimmed once and for all:
    at most 500 characters long, and with no whitespace left at either end
    (trimming it again changes nothing). *)
Theorem validate_text_canonical (v t : str) :
  validate_text v = Ok t -> t = strip v /\ len t <= 500 /\ strip t = t.
Proof.
  unfold validate_text. destruct (Z.ltb_spec 500 (len v)); [discriminate|].
  intros [= <-]. pose proof (len_strip v).
  split; [done|]. split; [lia|]. apply strip_strip.
Qed.

Lemma validate_text_canonical_witness :
  lit "buy milk" = strip (lit "  buy milk ")
  /\ len (lit "buy milk") <= 500 /\ strip (lit "buy milk") = lit "buy milk".
Proof.
  apply (validate_text_canonical (lit "  buy milk ") (lit "buy milk")).
  vm_compute. reflexivity.
Defined.

(** ** Creating, listing, deleting *)

(** X3: a reminder a create request stored carries the user, the chat and
    the trimmed text of the request and the wall clock of its time; its job
    is in the scheduler under its [job_id], with the aware time of the
    request as run date; and the listing of its user shows it exactly while
    the wall clock of the query is before the wall clock of the row. *)
Theorem create_then_list (arm_fails : str -> Job -> bool)
    (now ts dbn u c : Z) (t : str) (rt : aware) (st st' : State)
    (row : ReminderModel) :
  create arm_fails now ts dbn u c t rt st = (Ok row, st') ->
  user_id row = u /\ chat_id row = c /\ text row = strip t
  /\ remind_time row = wall rt
  /\ get_job (job_id row) (sched st')
     = Some {| fire_time := Aware (instant rt); payload := (c, strip t) |}
  /\ forall now', row ∈ (get_user_reminders now' u st').1 <-> now' < wall rt.
Proof.
  intros H. unfold create in H.
  destruct (ReminderCreate_init now u c t rt) as [rc|] eqn:Hrc;
    [|discriminate].
  apply ReminderCreate_init_ok in Hrc as (_ & _ & ->).
  apply create_reminder_ok in H as (_ & Hrow & Hdb & Hjob).
  simpl in *. subst row. simpl in *.
  split; [done|]. split; [done|]. split; [done|]. split; [done|].
  split; [done|]. intros now'.
  rewrite merge_sort_Permutation, !list_elem_of_filter. simpl. split.
  - by intros [? _].
  - intros Hnow. split; [done|]. split; [done|].
    rewrite Hdb. apply elem_of_app. right. by apply list_elem_of_singleton.
Qed.

Lemma create_then_list_witness :
  let rt := at_offset 9000 50 in
  let res := create (fun _ _ => false) 0 100 0 7 8 (lit " a ") rt initial in
  let row := {| id := 1; user_id := 7; chat_id := 8; text := lit "a";
                remind_time := 9050; created_at := 0;
                job_id := make_job_id 7 100 |} in
  get_job (job_id row) (sched res.2)
    = Some {| fire_time := Aware 50; payload := (8, lit "a") |}
  /\ (row ∈ (get_user_reminders 9000 7 res.2).1 <-> 9000 < 9050)
  /\ (row ∈ (get_user_reminders 10800 7 res.2).1 <-> 10800 < 9050).
Proof.
  intros rt res row.
  pose proof (create_then_list (fun _ _ => false) 0 100 0 7 8 (lit " a ")
                rt initial res.2 row) as H.
  destruct H as (_ & _ & _ & _ & Hjob & Hlist).
  - vm_compute. reflexivity.
  - split; [exact Hjob|]. split; apply Hlist.
Defined.

Lemma remove_job_lookup (j k : str) (s : Scheduler) :
  timers (remove_job j s).2 !! k
    = (if decide (j = k) then None else timers s !! k)
  /\ jobstore (remove_job j s).2 !! k
    = (if decide (j = k) then None else jobstore s !! k).
Proof.
  unfold remove_job.
  destruct (timers s !! j) eqn:Ht; [|destruct (jobstore s !! j) eqn:Hj];
    simpl; rewrite ?lookup_delete; try done.
  by destruct (decide (j = k)) as [<- |].
Qed.

(** X4: deleting a stored reminder removes that row and no other, leaves no
    timer and no JobStore record under its [job_id], and leaves the jobs of
    the other reminders alone; for an id no row has, [delete_reminder]
    answers [False] and changes nothing. *)
Theorem delete_reminder_effect (st : State) :
  store_inv (db st) ->
  (forall r, r ∈ db st ->
     let st' := (delete_reminder (id r) st).2 in
     db st' = filter (fun r' => id r' <> id r) (db st)
     /\ (forall r', r' ∈ db st' <-> r' ∈ db st /\ r' <> r)
     /\ timers (sched st') !! job_id r = None
     /\ jobstore (sched st') !! job_id r = None
     /\ forall j, j <> job_id r ->
          timers (sched st') !! j = timers (sched st) !! j
          /\ jobstore (sched st') !! j = jobstore (sched st) !! j)
  /\ (forall i, i ∉ id <$> db st -> delete_reminder i st = (Ok false, st)).
Proof.
  intros Hinv. split.
  - intros r Hr. cbv zeta. rewrite delete_reminder_present by done. simpl.
    destruct (remove_job_lookup (job_id r) (job_id r) (sched st)) as [Ht Hj].
    rewrite decide_True in Ht, Hj by done.
    split; [done|]. split; [|split; [done|]; split; [done|]].
    + intros r'. rewrite list_elem_of_filter. split.
      * intros [Hne Hr']. split; [done | congruence].
      * intros [Hr' Hne]. split; [|done].
        intros Heq. apply Hne. destruct Hinv as (Hid & _).
        by eapply (NoDup_fmap_eq id).
    + intros j Hne.
      destruct (remove_job_lookup (job_id r) j (sched st)) as [Ht' Hj'].
      by rewrite decide_False in Ht', Hj'.
  - intros i Hi. apply delete_reminder_absent. intros r Hr <-.
    apply Hi. by apply list_elem_of_fmap_2.
Qed.

Lemma delete_reminder_effect_witness :
  let r := {| id := 1; user_id := 7; chat_id := 7; text := lit "a";
              remind_time := 50; created_at := 0;
              job_id := make_job_id 7 100 |} in
  let st := {| db := [r]; sched := Sched.empty |} in
  db (delete_reminder 1 st).2 = [] /\ delete_reminder 2 st = (Ok false, st).
Proof.
  intros r st.
  assert (Hinv : store_inv (db st)).
  { repeat split.
    + apply (bool_decide_unpack _). vm_compute. exact I.
    + apply (bool_decide_unpack _). vm_compute. exact I.
    + intros r' Hr'. apply list_elem_of_singleton in Hr' as ->. discriminate. }
  destruct (delete_reminder_effect st Hinv) as [Hpresent Habsent]. split.
  - refine (proj1 (Hpresent r _)). apply list_elem_of_singleton. reflexivity.
  - apply Habsent. simpl. intros Hin.
    apply list_elem_of_singleton in Hin. discriminate.
Defined.

(** X5: when the job id of a request is already in the table,
    [create_reminder] ends with the [IntegrityError] of the insert and the
    table is as before, but the defensive removal has already run: no timer
    and no JobStore record is left under that job id, while the other jobs
    are as before. *)
Theorem create_reminder_duplicate (arm_fails : str -> Job -> bool)
    (ts dbn : Z) (rc : ReminderCreate) (st : State) :
  let j := make_job_id (rc_user_id rc) ts in
  j ∈ job_id <$> db st ->
  let res := create_reminder arm_fails ts dbn rc st in
  res.1 = Raise IntegrityError
  /\ db res.2 = db st
  /\ timers (sched res.2) !! j = None
  /\ (is_Some (timers (sched st) !! j) -> jobstore (sched res.2) !! j = None)
  /\ forall k, k <> j ->
       timers (sched res.2) !! k = timers (sched st) !! k
       /\ jobstore (sched res.2) !! k = jobstore (sched st) !! k.
Proof.
  intros j Hdup res. subst res. unfold create_reminder. fold j.
  rewrite insert_duplicate by done. simpl. unfold get_job.
  split; [done|]. split; [done|].
  destruct (timers (sched st) !! j) as [job|] eqn:Ht.
  - destruct (remove_job_lookup j j (sched st)) as [Ht' Hj'].
    rewrite decide_True in Ht', Hj' by done.
    split; [done|]. split; [done|]. intros k Hk.
    destruct (remove_job_lookup j k (sched st)) as [Ht'' Hj''].
    by rewrite decide_False in Ht'', Hj''.
  - split; [done|]. split; [by intros [? ?]|]. done.
Qed.

Lemma create_reminder_duplicate_witness :
  let st1 :=
    (create (fun _ _ => false) 0 100 0 7 7 (lit "a") (at_offset 0 50) initial).2 in
  let rc := {| rc_user_id := 7; rc_chat_id := 7; rc_text := lit "b";
               rc_remind_time := at_offset 0 60 |} in
  is_Some (timers (sched st1) !! make_job_id 7 100)
  /\ timers (sched (create_reminder (fun _ _ => false) 100 0 rc st1).2)
       !! make_job_id 7 100 = None.
Proof.
  intros st1 rc. split.
  - vm_compute. eexists. reflexivity.
  - refine (proj1 (proj2 (proj2
              (create_reminder_duplicate (fun _ _ => false) 100 0 rc st1 _)))).
    vm_compute. apply elem_of_cons. left. reflexivity.
Defined.

(** X6: persist, then arm.  When the scheduler refuses the job of a request
    whose job id is new, [create_reminder] raises after the row is stored:
    the row is in the table, with the wall clock of the request, and no
    timer is armed for it.  The next [restore_reminders] whose wall clock is
    before that of the row, with a scheduler that takes the job, arms it:
    under the same job id, with the same chat and text, and with the
    zone-less time of the row as run date, where the refused job had the
    aware time of the request. *)
Theorem create_unarmed_then_restore (arm_fails arm_fails' : str -> Job -> bool)
    (ts dbn : Z) (rc : ReminderCreate) (st : State) (now : Z) :
  let j := make_job_id (rc_user_id rc) ts in
  let refused := {| fire_time := Aware (instant (rc_remind_time rc));
                    payload := (rc_chat_id rc, rc_text rc) |} in
  let restored := {| fire_time := Naive (wall (rc_remind_time rc));
                     payload := (rc_chat_id rc, rc_text rc) |} in
  store_inv (db st) ->
  j ∉ job_id <$> db st ->
  arm_fails j refused = true ->
  let res := create_reminder arm_fails ts dbn rc st in
  res.1 = Raise SchedulerError
  /\ db res.2
     = db st ++ [ {| id := next_id (db st); user_id := rc_user_id rc;
                     chat_id := rc_chat_id rc; text := rc_text rc;
                     remind_time := wall (rc_remind_time rc);
                     created_at := dbn; job_id := j |} ]
  /\ timers (sched res.2) !! j = None
  /\ (now < wall (rc_remind_time rc) -> arm_fails' j restored = false ->
      timers (sched (restore_reminders arm_fails' now res.2).2) !! j
        = Some restored).
Proof.
  intros j refused restored Hinv Hfresh Hfail res.
  pose proof (create_reminder_store_inv arm_fails ts dbn rc st Hinv) as Hinv'.
  fold res in Hinv'. subst res. unfold create_reminder in *.
  fold j in Hinv' |- *.
  unfold insert in *. simpl in *.
  rewrite bool_decide_eq_false_2 in Hinv' |- * by done.
  unfold add_job in *. fold refused in Hinv' |- *.
  rewrite Hfail in Hinv' |- *. simpl in *.
  set (row := {| id := next_id (db st); user_id := rc_user_id rc;
                 chat_id := rc_chat_id rc; text := rc_text rc;
                 remind_time := wall (rc_remind_time rc); created_at := dbn;
                 job_id := j |}) in *.
  split; [done|]. split; [done|]. split.
  - unfold get_job. destruct (timers (sched st) !! j) eqn:Ht; [|done].
    destruct (remove_job_lookup j j (sched st)) as [Ht' _].
    by rewrite decide_True in Ht'.
  - intros Hnow Hok.
    apply (restore_loop_armed arm_fails' _ _ row).
    + apply (store_inv_filter (fun r => now < remind_time r)) in Hinv'.
      apply Hinv'.
    + apply list_elem_of_filter. split; [done|].
      apply elem_of_app. right. by apply list_elem_of_singleton.
    + done.
Qed.

Lemma create_unarmed_then_restore_witness :
  let rc := {| rc_user_id := 7; rc_chat_id := 7; rc_text := lit "a";
               rc_remind_time := at_offset 10800 50 |} in
  timers
    (sched (restore_reminders (fun _ _ => false) 10
              (create_reminder (fun _ _ => true) 100 0 rc initial).2).2)
    !! make_job_id 7 100
  = Some {| fire_time := Naive 10850; payload := (7, lit "a") |}.
Proof.
  intros rc.
  refine (proj2 (proj2 (proj2
            (create_unarmed_then_restore (fun _ _ => true) (fun _ _ => false)
               100 0 rc initial 10 store_inv_nil _ _))) _ _).
  - simpl. apply not_elem_of_nil.
  - reflexivity.
  - simpl. lia.
  - reflexivity.
Defined.

(** X7: job ids tell requests apart: two job ids are the same only for the
    same user in the same clock second, and a job id is never the empty
    string. *)
Theorem make_job_id_determines (u1 ts1 u2 ts2 : Z) :
  (make_job_id u1 ts1 = make_job_id u2 ts2 <-> u1 = u2 /\ ts1 = ts2)
  /\ make_job_id u1 ts1 <> [].
Proof.
  split; [|apply make_job_id_nonempty]. split.
  - apply make_job_id_inj.
  - by intros [-> ->].
Qed.

(** ** Reconciliation, again *)

Lemma add_job_jobstore (arm_fails : str -> Job -> bool) j job s k :
  jobstore (add_job arm_fails j job s).2 !! k =
    if arm_fails j job then jobstore s !! k
    else if decide (j = k) then Some job else jobstore s !! k.
Proof.
  unfold add_job. destruct (arm_fails j job); simpl; [done|].
  apply lookup_insert.
Qed.

(** Under a job id the loop either leaves both maps as they were, or leaves
    one and the same job in both, whatever they held. *)
Lemma restore_loop_lookup_cases (arm_fails : str -> Job -> bool)
    (rs : list ReminderModel) (j : str) :
  (forall s, timers (restore_loop arm_fails rs s) !! j = timers s !! j
             /\ jobstore (restore_loop arm_fails rs s) !! j = jobstore s !! j)
  \/ (exists job, forall s,
        timers (restore_loop arm_fails rs s) !! j = Some job
        /\ jobstore (restore_loop arm_fails rs s) !! j = Some job).
Proof.
  induction rs as [|r rs IH]; [by left|]. simpl.
  destruct IH as [IH | [job IH]]; [|right; exists job; intros s; apply IH].
  destruct (arm_fails (job_id r) (job_of r)) eqn:Hf.
  - left. intros s. destruct (IH (add_job arm_fails (job_id r) (job_of r) s).2)
      as [-> ->].
    by rewrite add_job_timers, add_job_jobstore, Hf.
  - destruct (decide (job_id r = j)) as [Heq | Hne].
    + right. exists (job_of r). intros s.
      destruct (IH (add_job arm_fails (job_id r) (job_of r) s).2) as [-> ->].
      rewrite add_job_timers, add_job_jobstore, Hf.
      rewrite !decide_True by done. done.
    + left. intros s.
      destruct (IH (add_job arm_fails (job_id r) (job_of r) s).2) as [-> ->].
      rewrite add_job_timers, add_job_jobstore, Hf.
      rewrite !decide_False by done. done.
Qed.

(** X8: reconciliation is idempotent: running [restore_reminders] a second
    time, at the same current time and with a scheduler that answers the
    same way, gives the state the first run gave. *)
Theorem restore_reminders_idempotent (arm_fails : str -> Job -> bool)
    (now : Z) (st : State) :
  restore_reminders arm_fails now (restore_reminders arm_fails now st).2
  = restore_reminders arm_fails now st.
Proof.
  unfold restore_reminders. simpl. f_equal.
  set (rs := filter (fun r => now < remind_time r) (db st)).
  set (s0 := remove_all_jobs (sched st)).
  set (s1 := remove_all_jobs (restore_loop arm_fails rs s0)).
  f_equal.
  assert (Hboth : forall j,
            timers (restore_loop arm_fails rs s1) !! j
              = timers (restore_loop arm_fails rs s0) !! j
            /\ jobstore (restore_loop arm_fails rs s1) !! j
              = jobstore (restore_loop arm_fails rs s0) !! j).
  { intros j.
    destruct (restore_loop_lookup_cases arm_fails rs j) as [H | [job H]].
    - destruct (H s1) as [-> ->]. destruct (H s0) as [-> _]. done.
    - destruct (H s1) as [-> ->]. destruct (H s0) as [-> ->]. done. }
  destruct (restore_loop arm_fails rs s1) as [t1 j1] eqn:E1.
  destruct (restore_loop arm_fails rs s0) as [t0 j0] eqn:E0.
  simpl in Hboth. f_equal; apply map_eq; intros j; apply Hboth.
Qed.

(** ** What holds in every state *)

Lemma remove_job_timers_sub (j k : str) (s : Scheduler) (job : Job) :
  timers (remove_job j s).2 !! k = Some job ->
  k <> j /\ timers s !! k = Some job.
Proof.
  destruct (remove_job_lookup j k s) as [-> _].
  destruct (decide (j = k)) as [-> |]; [done|]. auto.
Qed.

(** X9: in every state the program reaches, every live timer is backed by a
    row of the table: a row with that [job_id], whose chat and text are the
    arguments of the job; and a run date without zone, as
    [restore_reminders] arms it, is the [remind_time] of that row. *)
Theorem reachable_timers_backed (arm_fails : str -> Job -> bool) (st : State) :
  reachable arm_fails st ->
  forall j job, timers (sched st) !! j = Some job ->
    exists r, r ∈ db st /\ job_id r = j
              /\ payload job = (chat_id r, text r)
              /\ forall t, fire_time job = Naive t -> t = remind_time r.
Proof.
  induction 1 as [| now ts dbn u c t rt st Hreach IH | i st Hreach IH
                  | now st Hreach IH | st Hreach IH]; intros j job Hj.
  - simpl in Hj. by rewrite lookup_empty in Hj.
  - unfold create in Hj |- *.
    destruct (ReminderCreate_init now u c t rt) as [rc|]; [|by apply IH].
    unfold create_reminder in Hj |- *.
    set (jid := make_job_id (rc_user_id rc) ts) in *.
    set (s1 := match get_job jid (sched st) with
               | Some _ => (remove_job jid (sched st)).2
               | None => sched st
               end) in *.
    assert (Hs1 : forall k jb, timers s1 !! k = Some jb ->
                    timers (sched st) !! k = Some jb).
    { intros k jb. subst s1. destruct (get_job jid (sched st)); [|done].
      intros Hk. by apply remove_job_timers_sub in Hk as [_ ?]. }
    destruct (insert _ (db st)) as [[row rows] | e] eqn:Hins.
    + apply insert_ok in Hins as (_ & Hrow & ->). simpl in Hrow.
      assert (Hold : forall k jb, timers s1 !! k = Some jb ->
                exists r, r ∈ db st ++ [row] /\ job_id r = k
                          /\ payload jb = (chat_id r, text r)
                          /\ forall t, fire_time jb = Naive t
                                        -> t = remind_time r).
      { intros k jb Hk. apply Hs1, IH in Hk as (r & Hr & ? & ? & ?).
        exists r. split; [|done]. apply elem_of_app. by left. }
      unfold add_job in Hj |- *. destruct (arm_fails jid _); simpl in Hj |- *;
        [by apply Hold|].
      destruct (decide (jid = j)) as [<- | Hne].
      * rewrite lookup_insert_eq in Hj. injection Hj as <-.
        exists row. split.
        { apply elem_of_app. right. by apply list_elem_of_singleton. }
        subst row. simpl. repeat split. discriminate.
      * rewrite lookup_insert_ne in Hj by done. by apply Hold.
    + simpl in Hj |- *. by apply Hs1, IH in Hj.
  - pose proof (reachable_store_inv _ _ Hreach) as Hinv.
    destruct (decide (i ∈ id <$> db st)) as [Hin | Hout].
    + apply list_elem_of_fmap in Hin as (r & -> & Hr).
      rewrite delete_reminder_present in Hj |- * by done. simpl in *.
      apply remove_job_timers_sub in Hj as [Hne Hj].
      apply IH in Hj as (r' & Hr' & <- & Hpay & Hfire).
      exists r'. split; [|done].
      apply list_elem_of_filter. split; [|done].
      intros Heq. apply Hne. f_equal. destruct Hinv as (Hid & _).
      by eapply (NoDup_fmap_eq id).
    + rewrite delete_reminder_absent in Hj |- *; [by apply IH | |].
      all: intros r Hr <-; apply Hout; by apply list_elem_of_fmap_2.
  - apply restore_reminders_origin_aux in Hj as (r & Hr & -> & ->).
    apply list_elem_of_filter in Hr as [_ Hr]. exists r.
    split; [done|]. split; [done|]. split; [done|].
    simpl. by intros t [= <-].
  - simpl in Hj. by rewrite lookup_empty in Hj.
Qed.

Lemma reachable_timers_backed_witness :
  let st := (restore_reminders (fun _ _ => false) 10
               (create (fun _ _ => false) 0 100 0 7 7 (lit "a")
                  (at_offset 10800 50) initial).2).2 in
  exists r, r ∈ db st /\ job_id r = make_job_id 7 100
            /\ payload {| fire_time := Naive 10850;
                          payload := (7, lit "a") |}
               = (chat_id r, text r)
            /\ forall t, fire_time {| fire_time := Naive 10850;
                                      payload := (7, lit "a") |} = Naive t
                          -> t = remind_time r.
Proof.
  intros st.
  apply (reachable_timers_backed (fun _ _ => false) st).
  - apply reach_restore, reach_create, reach_initial.
  - vm_compute. reflexivity.
Defined.

(** X10: in every state the program reaches, the rows of the table have
    pairwise different ids and pairwise different, non-empty job ids. *)
Theorem reachable_table_unique (arm_fails : str -> Job -> bool) (st : State) :
  reachable arm_fails st ->
  forall r1 r2, r1 ∈ db st -> r2 ∈ db st ->
    (id r1 = id r2 -> r1 = r2) /\ (job_id r1 = job_id r2 -> r1 = r2)
    /\ job_id r1 <> [].
Proof.
  intros Hreach r1 r2 H1 H2.
  destruct (reachable_store_inv _ _ Hreach) as (Hid & Hjob & Hne).
  repeat split.
  - intros Heq. by apply (NoDup_fmap_eq id (db st)).
  - intros Heq. by apply (NoDup_fmap_eq job_id (db st)).
  - by apply Hne.
Qed.

Lemma reachable_table_unique_witness :
  let st1 := (create (fun _ _ => false) 0 100 0 7 7 (lit "a") (at_offset 0 50) initial).2 in
  let st2 := (create (fun _ _ => false) 0 101 0 7 7 (lit "b") (at_offset 0 60) st1).2 in
  let r1 := {| id := 1; user_id := 7; chat_id := 7; text := lit "a";
               remind_time := 50; created_at := 0;
               job_id := make_job_id 7 100 |} in
  let r2 := {| id := 2; user_id := 7; chat_id := 7; text := lit "b";
               remind_time := 60; created_at := 0;
               job_id := make_job_id 7 101 |} in
  (id r1 = id r2 -> r1 = r2) /\ (job_id r1 = job_id r2 -> r1 = r2)
  /\ job_id r1 <> [].
Proof.
  intros st1 st2 r1 r2.
  apply (reachable_table_unique (fun _ _ => false) st2).
  - apply reach_create, reach_create, reach_initial.
  - vm_compute. apply elem_of_cons. left. reflexivity.
  - vm_compute. apply elem_of_cons. right. apply elem_of_cons. left.
    reflexivity.
Defined.

(** ** Relative phrases *)

Lemma split_ws_go_word (w rest cur : str) :
  Forall (fun c => isspace c = false) w ->
  split_ws_go (w ++ rest) cur = split_ws_go rest (rev w ++ cur).
Proof.
  intros Hw. revert cur. induction Hw as [|c w Hc _ IH]; intros cur; [done|].
  simpl. rewrite Hc, IH. by rewrite <- app_assoc.
Qed.

Lemma lstrip_app_word (w rest : str) :
  w <> [] -> Forall (fun c => isspace c = false) w ->
  lstrip (w ++ rest) = w ++ rest.
Proof.
  intros Hne Hw. destruct Hw as [|c w' Hc _]; [congruence|].
  simpl. by rewrite Hc.
Qed.

Lemma lower_no_letters (s : str) :
  Forall (fun c => (c < 65)%N) s -> lower s = s.
Proof.
  unfold lower. induction 1 as [|c s Hc _ IH]; [done|]. simpl.
  rewrite IH. f_equal. unfold lower_char.
  destruct (N.leb_spec 65 c); [lia|]. simpl.
  destruct (N.leb_spec 1040 c); [lia|]. simpl.
  destruct (N.leb_spec 1024 c); [lia|]. done.
Qed.

Lemma str_of_int_below_letters (n : Z) :
  Forall (fun c => (c < 65)%N) (str_of_int n).
Proof.
  apply Forall_forall. intros c Hc.
  apply str_of_int_ascii in Hc as [-> | Hc]; lia.
Qed.

Lemma str_of_int_nonempty (n : Z) : str_of_int n <> [].
Proof.
  pose proof (to_int_digits_nonnil n) as Hnn. unfold str_of_int.
  destruct (Z.to_int n) as [d | d]; [|discriminate]. by destruct d.
Qed.

Lemma lower_app (a b : str) : lower (a ++ b) = lower a ++ lower b.
Proof. apply map_app. Qed.

Lemma lower_cons (c : N) (s : str) : lower (c :: s) = lower_char c :: lower s.
Proof. reflexivity. Qed.

Lemma strip_fixed (s : str) :
  lstrip s = s -> lstrip (rev s) = rev s -> strip s = s.
Proof.
  intros H1 H2. unfold strip, rstrip. by rewrite H1, H2, rev_involutive.
Qed.

Lemma rev_nonempty {A} (l : list A) : l <> [] -> rev l <> [].
Proof. intros Hne Hr. apply Hne. by rewrite <- (rev_involutive l), Hr. Qed.

Lemma Forall_rev_no_space (s : str) :
  Forall (fun c => isspace c = false) s ->
  Forall (fun c => isspace c = false) (rev s).
Proof.
  intros H. apply Forall_forall. intros c Hc.
  rewrite list_elem_of_In, <- in_rev, <- list_elem_of_In in Hc.
  revert c Hc. by apply Forall_forall.
Qed.

(** The words of [через <n> <unit>], and the phrase after [lower] and
    [strip]. *)
Lemma relative_phrase_words (n : Z) (w : str) :
  w <> [] -> Forall (fun c => isspace c = false) w -> lower w = w ->
  let phrase := lit "через " ++ str_of_int n ++ 32%N :: w in
  strip (lower phrase) = phrase
  /\ startswith phrase (lit "через") = true
  /\ split_ws phrase = [lit "через"; str_of_int n; w].
Proof.
  intros Hne Hw Hlow phrase. subst phrase.
  replace (lit "через ") with [1095; 1077; 1088; 1077; 1079; 32]%N
    by reflexivity.
  replace (lit "через") with [1095; 1077; 1088; 1077; 1079]%N by reflexivity.
  set (d := str_of_int n).
  assert (Hd : Forall (fun c => isspace c = false) d)
    by apply str_of_int_no_space.
  assert (Hdne : d <> []) by apply str_of_int_nonempty.
  assert (Hlower : lower ([1095; 1077; 1088; 1077; 1079; 32]%N ++ d
                            ++ 32%N :: w)
                   = [1095; 1077; 1088; 1077; 1079; 32]%N ++ d ++ 32%N :: w).
  { rewrite !lower_app, (lower_cons 32 w), Hlow. unfold d.
    rewrite (lower_no_letters (str_of_int n))
      by apply str_of_int_below_letters.
    reflexivity. }
  split; [|split].
  - rewrite Hlower. apply strip_fixed; [reflexivity|].
    rewrite !rev_app_distr. cbn [rev]. rewrite <- !app_assoc.
    apply lstrip_app_word; [by apply rev_nonempty|].
    by apply Forall_rev_no_space.
  - apply (startswith_app [1095; 1077; 1088; 1077; 1079]%N).
  - unfold split_ws.
    change ([1095; 1077; 1088; 1077; 1079; 32]%N ++ d ++ 32%N :: w)
      with ([1095; 1077; 1088; 1077; 1079]%N ++ 32%N :: d ++ 32%N :: w).
    rewrite split_ws_go_word by (by repeat constructor).
    cbn [split_ws_go rev app].
    change (isspace 32) with true. cbv iota.
    rewrite split_ws_go_word by done.
    rewrite app_nil_r. cbn [split_ws_go].
    change (isspace 32) with true. cbv iota.
    destruct (rev d) as [|c r] eqn:Hrev; [by apply rev_nonempty in Hrev|].
    rewrite <- Hrev, rev_involutive.
    rewrite <- (app_nil_r w) at 1.
    rewrite split_ws_go_word by done. rewrite app_nil_r. cbn [split_ws_go].
    destruct (rev w) as [|c' r'] eqn:Hrevw; [by apply rev_nonempty in Hrevw|].
    by rewrite <- Hrevw, rev_involutive.
Qed.

Lemma parse_relative_phrase (strptime : str -> format -> result datetime)
    (now : datetime) (n : Z) (w : str) :
  w <> [] -> Forall (fun c => isspace c = false) w -> lower w = w ->
  parse strptime now (lit "через " ++ str_of_int n ++ 32%N :: w)
  = match
      (if any_in unit_minutes w then timedelta_minutes n
       else if any_in unit_hours w then timedelta_hours n
       else if any_in unit_days w then timedelta_days n
       else Raise ValueError) ≫= datetime_add now
    with
    | Ok dt => Ok (Some dt)
    | Raise ValueError | Raise IndexError => Ok None
    | Raise e => Raise e
    end.
Proof.
  intros Hne Hw Hlow.
  destruct (relative_phrase_words n w Hne Hw Hlow) as (Hs & Hstart & Hsplit).
  unfold parse. rewrite Hs, Hstart. unfold _parse_relative.
  rewrite Hsplit. cbn [index lookup list_lookup]. simpl.
  rewrite int_of_str_of_int. simpl. reflexivity.
Qed.

(** Adding a whole number of seconds moves a datetime by that many
    seconds and leaves a well-formed time of day. *)
Lemma datetime_add_seconds (now dt : datetime) (secs : Z) :
  0 <= microsecond now < 1000000 ->
  timedelta_of_seconds secs ≫= datetime_add now = Ok dt ->
  (ordinal dt - ordinal now) * 86400 + (hour dt - hour now) * 3600
    + (minute dt - minute now) * 60 + (second dt - second now) = secs
  /\ microsecond dt = microsecond now
  /\ 0 <= hour dt < 24 /\ 0 <= minute dt < 60 /\ 0 <= second dt < 60
  /\ 1 <= ordinal dt <= MAXORDINAL.
Proof.
  intros Hus. unfold timedelta_of_seconds.
  destruct (_ && _); [|discriminate]. simpl. unfold datetime_add. simpl.
  destruct (_ && _) eqn:Hrange; [|discriminate].
  apply andb_true_iff in Hrange as [H1 H2].
  apply Z.leb_le in H1, H2. intros [= <-]. simpl.
  rewrite Z.add_0_r in *.
  rewrite (Z.div_small (microsecond now)) in * by lia.
  rewrite (Z.mod_small (microsecond now)) by lia.
  rewrite Z.add_0_r in *.
  set (S := hour now * 3600 + minute now * 60 + second now
            + secs mod 86400) in *.
  repeat split; try lia; try (Z.div_mod_to_equations; lia).
Qed.

(** X11: a phrase [через <n> <unit>] with the unit written [минут], [час]
    or [день] either overflows or gives the current time moved by [n]
    minutes, hours or days, to the second, with a well-formed time of day
    and a date within years 1 to 9999. *)
Theorem parse_relative_amount (strptime : str -> format -> result datetime)
    (now : datetime) (n : Z) :
  0 <= microsecond now < 1000000 ->
  let moved input secs :=
    parse strptime now input = Raise OverflowError
    \/ exists dt,
         parse strptime now input = Ok (Some dt)
         /\ (ordinal dt - ordinal now) * 86400 + (hour dt - hour now) * 3600
              + (minute dt - minute now) * 60 + (second dt - second now)
            = secs
         /\ microsecond dt = microsecond now
         /\ 0 <= hour dt < 24 /\ 0 <= minute dt < 60 /\ 0 <= second dt < 60
         /\ 1 <= ordinal dt <= MAXORDINAL in
  moved (lit "через " ++ str_of_int n ++ lit " минут") (60 * n)
  /\ moved (lit "через " ++ str_of_int n ++ lit " час") (3600 * n)
  /\ moved (lit "через " ++ str_of_int n ++ lit " день") (86400 * n).
Proof.
  intros Hus moved.
  assert (Hcase : forall secs,
            match timedelta_of_seconds secs ≫= datetime_add now with
            | Ok dt => True
            | Raise e => e = OverflowError
            end).
  { intros secs. unfold timedelta_of_seconds.
    destruct (_ && _); [|done]. simpl. unfold datetime_add.
    by destruct (_ && _). }
  subst moved. cbv beta. repeat split.
  - change (lit " минут") with (32%N :: lit "минут").
    rewrite parse_relative_phrase;
      [| discriminate | vm_compute; repeat constructor | reflexivity].
    change (any_in unit_minutes (lit "минут")) with true. cbv iota.
    unfold timedelta_minutes. specialize (Hcase (60 * n)).
    destruct (timedelta_of_seconds (60 * n) ≫= datetime_add now)
      as [dt | e] eqn:E; [right | left; by subst e].
    exists dt. split; [done|]. by apply datetime_add_seconds.
  - change (lit " час") with (32%N :: lit "час").
    rewrite parse_relative_phrase;
      [| discriminate | vm_compute; repeat constructor | reflexivity].
    change (any_in unit_minutes (lit "час")) with false.
    change (any_in unit_hours (lit "час")) with true. cbv iota.
    unfold timedelta_hours. specialize (Hcase (3600 * n)).
    destruct (timedelta_of_seconds (3600 * n) ≫= datetime_add now)
      as [dt | e] eqn:E; [right | left; by subst e].
    exists dt. split; [done|]. by apply datetime_add_seconds.
  - change (lit " день") with (32%N :: lit "день").
    rewrite parse_relative_phrase;
      [| discriminate | vm_compute; repeat constructor | reflexivity].
    change (any_in unit_minutes (lit "день")) with false.
    change (any_in unit_hours (lit "день")) with false.
    change (any_in unit_days (lit "день")) with true. cbv iota.
    unfold timedelta_days. specialize (Hcase (86400 * n)).
    destruct (timedelta_of_seconds (86400 * n) ≫= datetime_add now)
      as [dt | e] eqn:E; [right | left; by subst e].
    exists dt. split; [done|]. by apply datetime_add_seconds.
Qed.

Lemma parse_relative_amount_witness :
  let now := {| ordinal := 739925; hour := 23; minute := 58; second := 7;
                microsecond := 0 |} in
  let input := lit "через " ++ str_of_int 5 ++ lit " минут" in
  parse (fun _ _ => Raise ValueError) now input = Raise OverflowError
  \/ exists dt,
       parse (fun _ _ => Raise ValueError) now input = Ok (Some dt)
       /\ (ordinal dt - ordinal now) * 86400 + (hour dt - hour now) * 3600
            + (minute dt - minute now) * 60 + (second dt - second now)
          = 60 * 5
       /\ microsecond dt = microsecond now
       /\ 0 <= hour dt < 24 /\ 0 <= minute dt < 60 /\ 0 <= second dt < 60
       /\ 1 <= ordinal dt <= MAXORDINAL.
Proof.
  intros now input.
  refine (proj1 (parse_relative_amount (fun _ _ => Raise ValueError) now 5 _)).
  simpl. lia.
Defined.

Lemma int_of_str_cases (s : str) :
  (exists n, int_of_str s = Ok n) \/ int_of_str s = Raise ValueError.
Proof.
  unfold int_of_str.
  destruct (match strip s with
            | 45%N :: r => (true, r)
            | 43%N :: r => (false, r)
            | _ => (false, strip s)
            end) as [neg ds].
  destruct (int_digits ds 0 false); [left; eauto | by right].
Qed.

(** X12: a phrase that starts with [через] gives [None] when it has fewer
    than three words, when its second word is not an integer, or when its
    third word holds none of the stems [мин], [min], [час], [hour], [день],
    [ден], [day] (as [дня] and [дней] do not). *)
Theorem parse_relative_none (strptime : str -> format -> result datetime)
    (now : datetime) (input_str : str) :
  let s := strip (lower input_str) in
  startswith s (lit "через") = true ->
  (length (split_ws s) < 3)%nat
  \/ (exists p, split_ws s !! 1%nat = Some p
                /\ int_of_str p = Raise ValueError)
  \/ (exists unit, split_ws s !! 2%nat = Some unit
                   /\ any_in unit_minutes unit = false
                   /\ any_in unit_hours unit = false
                   /\ any_in unit_days unit = false) ->
  parse strptime now input_str = Ok None.
Proof.
  intros s Hstart Hwhy. unfold parse. fold s. rewrite Hstart.
  unfold _parse_relative.
  destruct (split_ws s) as [|p0 [|p1 [|p2 rest]]] eqn:Hsplit;
    cbn [index lookup list_lookup] in *; simpl in *; try done.
  - by destruct (int_of_str_cases p1) as [[n Hn] | Hn]; rewrite Hn.
  - destruct (int_of_str_cases p1) as [[n Hn] | Hn]; rewrite Hn; simpl;
      [|done].
    destruct Hwhy as [Hlen | [(p & [= <-] & Hp) | (unit & [= <-] & H1 & H2 & H3)]];
      [lia | congruence |].
    by rewrite H1, H2, H3.
Qed.

Lemma parse_relative_none_witness :
  parse (fun _ _ => Raise ValueError)
    {| ordinal := 739925; hour := 12; minute := 0; second := 0;
       microsecond := 0 |} (lit "через 5 дней") = Ok None.
Proof.
  apply parse_relative_none.
  - vm_compute. reflexivity.
  - right. right. exists (lit "дней"). vm_compute. repeat split.
Defined.

Lemma combine_replace_ok (date h m : Z) (dt : datetime) :
  combine_replace date h m = Ok dt ->
  dt = {| ordinal := date; hour := h; minute := m; second := 0;
          microsecond := 0 |}
  /\ 0 <= h <= 23 /\ 0 <= m <= 59.
Proof.
  unfold combine_replace.
  destruct (negb (fits_C_int h && fits_C_int m)); [discriminate|].
  destruct ((0 <=? h) && (h <=? 23)) eqn:Hh; [|discriminate].
  destruct ((0 <=? m) && (m <=? 59)) eqn:Hm; [|discriminate].
  simpl. intros [= <-].
  apply andb_true_iff in Hh as [H1 H2]. apply andb_true_iff in Hm as [H3 H4].
  apply Z.leb_le in H1, H2, H3, H4. auto.
Qed.

(** X13: when a phrase that does not start with [через] and holds [в ] is
    understood, the result is today's date, or tomorrow's if the phrase holds
    [завтра], at an hour within 0..23 and a minute within 0..59, with
    seconds and microseconds zero. *)
Theorem parse_absolute_time (strptime : str -> format -> result datetime)
    (now dt : datetime) (input_str : str) :
  let s := strip (lower input_str) in
  startswith s (lit "через") = false ->
  contains (lit "в ") s = true ->
  parse strptime now input_str = Ok (Some dt) ->
  0 <= hour dt <= 23 /\ 0 <= minute dt <= 59
  /\ second dt = 0 /\ microsecond dt = 0
  /\ ordinal dt
     = (if contains (lit "завтра") s then ordinal now + 1 else ordinal now).
Proof.
  intros s Hstart Hin. unfold parse. fold s. rewrite Hstart, Hin.
  destruct (_parse_absolute s now) as [dt' | e] eqn:E;
    [|by destruct e]. intros [= ->].
  unfold _parse_absolute in E. rewrite Hin in E.
  destruct (contains (lit "завтра") s).
  - unfold date_add_days in E.
    change (timedelta_days 1)
      with (Ok {| td_days := 1; td_seconds := 0; td_microseconds := 0 |})
      in E.
    simpl in E.
    destruct ((1 <=? ordinal now + 1) && (ordinal now + 1 <=? MAXORDINAL));
      [|discriminate]. simpl in E.
    destruct (index _ 1) as [tp | ?]; [|discriminate]. simpl in E.
    destruct (if contains (lit ":") tp then _ else _) as [[h m] | ?];
      [|discriminate]. simpl in E.
    apply combine_replace_ok in E as (-> & ? & ?). simpl. auto.
  - simpl in E.
    destruct (index _ 1) as [tp | ?]; [|discriminate]. simpl in E.
    destruct (if contains (lit ":") tp then _ else _) as [[h m] | ?];
      [|discriminate]. simpl in E.
    apply combine_replace_ok in E as (-> & ? & ?). simpl. auto.
Qed.

Lemma parse_absolute_time_witness :
  let dt := {| ordinal := 739926; hour := 15; minute := 0; second := 0;
               microsecond := 0 |} in
  0 <= hour dt <= 23 /\ 0 <= minute dt <= 59
  /\ second dt = 0 /\ microsecond dt = 0
  /\ ordinal dt
     = (if contains (lit "завтра") (strip (lower (lit "Завтра в 15:00")))
        then 739925 + 1 else 739925).
Proof.
  intros dt.
  apply (parse_absolute_time (fun _ _ => Raise ValueError)
           {| ordinal := 739925; hour := 12; minute := 0; second := 0;
              microsecond := 0 |} dt (lit "Завтра в 15:00")).
  - vm_compute. reflexivity.
  - vm_compute. reflexivity.
  - vm_compute. reflexivity.
Defined.

(** ** Delivery with retries, at the bounds *)

(** X14: with [max_retries] zero or negative, [send_reminder_with_retry]
    makes no attempt at all: nothing is handed to the transport, nothing is
    logged, and the call returns normally. *)
Theorem send_reminder_with_retry_no_attempt
    (transport : nat -> Z -> str -> result unit)
    (chat_id : Z) (text : str) (max_retries : Z) (w : World) :
  max_retries <= 0 ->
  send_reminder_with_retry transport chat_id text max_retries w = (Ok tt, w).
Proof.
  intros Hmax. unfold send_reminder_with_retry.
  by rewrite seqZ_nil by lia.
Qed.

Lemma send_reminder_with_retry_no_attempt_witness :
  send_reminder_with_retry (fun _ _ _ => Ok tt) 7 (lit "a") 0
    {| sent := []; log := [] |}
  = (Ok tt, {| sent := []; log := [] |}).
Proof.
  apply send_reminder_with_retry_no_attempt. lia.
Defined.

(** ** The conversation *)

Section HandlerFacts.

Variable arm_fails : str -> Job -> bool.
Variable strptime : str -> format -> result datetime.
Variable utcoffset : tzinfo -> Z.
Variable strftime : str -> Z -> str.
Variable strftime_dt : str -> datetime -> str.
Variable validation_message : str -> Z -> Z -> str.
Variable api_fails : nat -> bool.

Lemma api_state (c : BotCall) (b : Bot) :
  user_contexts (api api_fails c b).2 = user_contexts b
  /\ service (api api_fails c b).2 = service b
  /\ calls (api api_fails c b).2 = calls b ++ [c]
  /\ (api api_fails c b).1
     = if api_fails (length (calls b)) then Fail (PyError TransportError)
       else Done tt.
Proof. done. Qed.

Lemma api_not_key_error (c : BotCall) (b : Bot) :
  (api api_fails c b).1 <> Fail KeyError.
Proof. unfold api. cbn [fst]. by destruct (api_fails _). Qed.

Lemma contexts_ok_insert (user : Z) (context : UserContext)
    (m : gmap Z UserContext) (b b' : Bot) :
  contexts_ok b -> context_ok context ->
  user_contexts b' = <[user := context]> (user_contexts b) ->
  contexts_ok b'.
Proof.
  intros Hb Hc Heq u ctx. rewrite Heq, lookup_insert.
  destruct (decide (user = u)); [by intros [= <-] | apply Hb].
Qed.

Lemma contexts_ok_same (b b' : Bot) :
  contexts_ok b -> user_contexts b' = user_contexts b -> contexts_ok b'.
Proof. intros Hb Heq u ctx. rewrite Heq. apply Hb. Qed.

Lemma create_from_context_contexts now ts db_now message context rt b :
  let res := create_from_context arm_fails utcoffset strftime_dt api_fails
               now ts db_now message context rt b in
  user_contexts res.2 = user_contexts b
  \/ user_contexts res.2
     = <[m_from_user message :=
           {| ctx_state := MAIN_MENU; data_chat_id := data_chat_id context;
              data_text := data_text context |}]> (user_contexts b).
Proof.
  unfold create_from_context.
  destruct (getitem (data_chat_id context)); [|by left].
  destruct (getitem (data_text context)); [|by left].
  destruct (ReminderCreate_init _ _ _ _ _); [|by left].
  destruct (create_reminder _ _ _ _ _) as [[row | e] s]; [|by left].
  unfold api. simpl. destruct (api_fails _); simpl; [by left | by right].
Qed.

Lemma handle_text_input_contexts_ok now_dt now ts db_now message b :
  contexts_ok b ->
  contexts_ok (handle_text_input arm_fails strptime utcoffset strftime_dt
                 validation_message api_fails now_dt now ts db_now message
                 b).2.
Proof.
  intros Hb. unfold handle_text_input.
  destruct (user_contexts b !! m_from_user message) as [context|] eqn:Hctx;
    [|done].
  pose proof (Hb _ _ Hctx) as Hok. unfold context_ok in Hok.
  destruct (ctx_state context) eqn:Hst; [done | |].
  - eapply contexts_ok_insert; [exact ∅ | exact Hb | | reflexivity].
    unfold context_ok. simpl. split; [done | by eexists].
  - destruct (parse strptime now_dt (m_text message)) as [[rt|] | e];
      [| by eapply contexts_ok_same | done].
    pose proof (create_from_context_contexts now ts db_now message context
                  rt b) as Hcases. cbv zeta in Hcases.
    destruct (create_from_context _ _ _ _ _ _ _ _ _ _ _) as [r b1].
    simpl in Hcases.
    assert (Hb1 : contexts_ok b1).
    { destruct Hcases as [Heq | Heq];
        [by eapply contexts_ok_same|].
      eapply contexts_ok_insert; [exact ∅ | exact Hb | | exact Heq]. done. }
    destruct r as [[] | [[] |]]; try done; by eapply contexts_ok_same.
Qed.

Lemma on_callback_query_contexts_ok now call b :
  contexts_ok b ->
  contexts_ok (on_callback_query strftime api_fails now call b).2.
Proof.
  intros Hb. unfold on_callback_query.
  destruct (is_create _).
  { eapply contexts_ok_insert; [exact ∅ | exact Hb | | reflexivity].
    unfold context_ok. simpl. by eexists. }
  destruct (is_list _).
  { unfold handle_list_reminders. simpl.
    destruct (merge_sort _ _); by eapply contexts_ok_same. }
  destruct (is_delete _).
  { unfold handle_delete_reminder.
    destruct (reminder_id_of_data _); [|done].
    destruct (delete_reminder _ _) as [[[|] | e] s]; simpl;
      try (by eapply contexts_ok_same).
    unfold api. simpl. destruct (api_fails _); by eapply contexts_ok_same. }
  destruct (is_cancel _); [|done].
  eapply contexts_ok_insert; [exact ∅ | exact Hb | | reflexivity]. done.
Qed.

(** Along a conversation every context holds the keys its state reads. *)
Lemma conversation_contexts_ok (b : Bot) :
  conversation arm_fails strptime utcoffset strftime strftime_dt
    validation_message api_fails b ->
  contexts_ok b.
Proof.
  induction 1 as [s | message b _ IH | now_dt now ts db_now message b _ IH
                  | now call b _ IH].
  - intros u ctx. simpl. by rewrite lookup_empty.
  - eapply contexts_ok_insert; [exact ∅ | exact IH | | reflexivity]. done.
  - by apply handle_text_input_contexts_ok.
  - by apply on_callback_query_contexts_ok.
Qed.

(** X15: along a conversation (from no context at all, through [/start],
    text messages and button presses) [handle_text_input] never ends with a
    [KeyError]: whenever it reads [data["chat_id"]] and [data["text"]], the
    earlier steps have stored them. *)
Theorem handle_text_input_no_key_error (b : Bot)
    (now_dt : datetime) (now ts db_now : Z) (message : Message) :
  conversation arm_fails strptime utcoffset strftime strftime_dt
    validation_message api_fails b ->
  (handle_text_input arm_fails strptime utcoffset strftime_dt
     validation_message api_fails now_dt now ts db_now message b).1
  <> Fail KeyError.
Proof.
  intros Hconv. apply conversation_contexts_ok in Hconv.
  unfold handle_text_input.
  destruct (user_contexts b !! m_from_user message) as [context|] eqn:Hctx;
    [|done].
  pose proof (Hconv _ _ Hctx) as Hok. unfold context_ok in Hok.
  destruct (ctx_state context) eqn:Hst; [done | |].
  - apply api_not_key_error.
  - destruct Hok as [[chat Hchat] [t Ht]].
    destruct (parse strptime now_dt (m_text message)) as [[rt|] | e];
      [| apply api_not_key_error | done].
    unfold create_from_context. rewrite Hchat, Ht. cbn [getitem].
    destruct (ReminderCreate_init _ _ _ _ _) as [rc | e].
    + destruct (create_reminder _ _ _ _ _) as [[row | e] s].
      * destruct (api api_fails _ _) as [[[] | err] b2] eqn:Hapi; [done|].
        pose proof (api_not_key_error
                      (send_message_call (m_chat message)
                         (lit "✅ Напоминание создано на "
                            ++ strftime_dt (lit "%d.%m.%Y %H:%M") rt)
                         main_menu) (set_service s b)) as Hne.
        rewrite Hapi in Hne.
        destruct err as [[] |]; try done; apply api_not_key_error.
      * destruct e; try done; apply api_not_key_error.
    + destruct e; try done; apply api_not_key_error.
Qed.

End HandlerFacts.

Lemma delete_data_filters (n : Z) :
  is_create (lit "delete_" ++ str_of_int n) = false
  /\ is_list (lit "delete_" ++ str_of_int n) = false
  /\ is_delete (lit "delete_" ++ str_of_int n) = true.
Proof.
  unfold is_create, is_list, is_delete.
  split; [by apply bool_decide_eq_false_2|].
  split; [by apply bool_decide_eq_false_2 | apply startswith_app].
Qed.

Lemma ReminderCreate_init_invalid (now u c : Z) (t : str) (rt : aware) :
  rt <= now \/ 500 < len t ->
  ReminderCreate_init now u c t rt = Raise ValueError.
Proof.
  intros [Hrt | Hlen]; unfold ReminderCreate_init.
  - rewrite validate_remind_time_past by done. by destruct (validate_text t).
  - by rewrite validate_text_long.
Qed.

#[local] Arguments lit : simpl never.

Section ConversationFlows.

Variable arm_fails : str -> Job -> bool.
Variable strptime : str -> format -> result datetime.
Variable utcoffset : tzinfo -> Z.
Variable strftime : str -> Z -> str.
Variable strftime_dt : str -> datetime -> str.
Variable validation_message : str -> Z -> Z -> str.
Variable api_fails : nat -> bool.

(** X16: pressing the button the listing shows for a reminder deletes that
    reminder and no other row, whoever presses it, and leaves the contexts
    alone; when the two Bot API calls go through, the press is answered with
    the confirmation and the message is replaced by the main menu. *)
Theorem press_delete_button (now : Z) (call : CallbackQuery) (b : Bot)
    (r : ReminderModel) :
  store_inv (db (service b)) -> r ∈ db (service b) ->
  c_data call = callback_data (reminder_button strftime r) ->
  let res := on_callback_query strftime api_fails now call b in
  db (service res.2) = filter (fun r' => id r' <> id r) (db (service b))
  /\ user_contexts res.2 = user_contexts b
  /\ (api_fails (length (calls b)) = false ->
      api_fails (S (length (calls b))) = false ->
      res.1 = Done tt
      /\ calls res.2
         = calls b
             ++ [answer_callback_query_call (c_id call)
                   (lit "Напоминание удалено!");
                 edit_message_text_call (lit "Напоминание успешно удалено.")
                   (c_chat call) (c_message_id call) main_menu]).
Proof.
  intros Hinv Hr Hdata res. subst res.
  unfold on_callback_query. rewrite Hdata. cbn [reminder_button callback_data].
  destruct (delete_data_filters (id r)) as (-> & -> & ->).
  unfold handle_delete_reminder. rewrite Hdata.
  cbn [reminder_button callback_data].
  rewrite reminder_id_of_delete_data, delete_reminder_present by done.
  unfold api, set_service. cbn [calls service user_contexts fst snd].
  destruct (api_fails (length (calls b))) eqn:H1.
  - cbn [fst snd service db user_contexts].
    split; [reflexivity|]. split; [reflexivity|]. discriminate.
  - cbn [fst snd service db user_contexts calls].
    rewrite length_app. cbn [length].
    replace (length (calls b) + 1)%nat with (S (length (calls b))) by lia.
    split; [reflexivity|]. split; [reflexivity|].
    intros _ H2. rewrite H2. cbn [fst snd calls].
    by rewrite <- app_assoc.
Qed.

(** X17: a time entry that is not understood, or is understood but whose
    instant is not after the current one, or comes with a text of more than
    500 characters, stores nothing: the table and the scheduler are as before, the context stays in
    [SET_TIME] with its data, and one message with the cancel button is sent
    to the chat. *)
Theorem time_entry_rejected (now_dt : datetime) (now ts db_now : Z)
    (message : Message) (b : Bot) (context : UserContext) (chat : Z)
    (t : str) :
  user_contexts b !! m_from_user message = Some context ->
  ctx_state context = SET_TIME ->
  data_chat_id context = Some chat -> data_text context = Some t ->
  parse strptime now_dt (m_text message) = Ok None
  \/ (exists rt, parse strptime now_dt (m_text message) = Ok (Some rt)
                 /\ (aware_of utcoffset (m_text message) rt <= now
                     \/ 500 < len t)) ->
  let res := handle_text_input arm_fails strptime utcoffset strftime_dt
               validation_message api_fails now_dt now ts db_now message b in
  service res.2 = service b
  /\ user_contexts res.2 = user_contexts b
  /\ exists msg,
       calls res.2
       = calls b ++ [send_message_call (m_chat message) msg cancel_button].
Proof.
  intros Hctx Hst Hchat Ht Hwhy res. subst res.
  unfold handle_text_input. rewrite Hctx, Hst.
  destruct Hwhy as [-> | (rt & -> & Hbad)].
  - repeat split. by eexists.
  - unfold create_from_context. rewrite Hchat, Ht. cbn [getitem].
    rewrite ReminderCreate_init_invalid by done.
    repeat split. by eexists.
Qed.

Lemma text_entry_step (now_dt : datetime) (now ts db_now : Z)
    (message : Message) (b : Bot) (context : UserContext) :
  user_contexts b !! m_from_user message = Some context ->
  ctx_state context = SET_TEXT ->
  let res := handle_text_input arm_fails strptime utcoffset strftime_dt
               validation_message api_fails now_dt now ts db_now message b in
  user_contexts res.2
  = <[m_from_user message :=
        {| ctx_state := SET_TIME; data_chat_id := data_chat_id context;
           data_text := Some (m_text message) |}]> (user_contexts b)
  /\ service res.2 = service b.
Proof.
  intros Hctx Hst res. subst res. unfold handle_text_input.
  rewrite Hctx, Hst. done.
Qed.

Lemma time_entry_step (now_dt : datetime) (now ts db_now : Z)
    (message : Message) (b : Bot) (context : UserContext) (chat : Z)
    (t : str) (rt : datetime) :
  user_contexts b !! m_from_user message = Some context ->
  ctx_state context = SET_TIME ->
  data_chat_id context = Some chat -> data_text context = Some t ->
  parse strptime now_dt (m_text message) = Ok (Some rt) ->
  len t <= 500 -> now < aware_of utcoffset (m_text message) rt ->
  make_job_id (m_from_user message) ts ∉ job_id <$> db (service b) ->
  (forall j job, arm_fails j job = false) ->
  api_fails (length (calls b)) = false ->
  let res := handle_text_input arm_fails strptime utcoffset strftime_dt
               validation_message api_fails now_dt now ts db_now message b in
  let row := {| id := next_id (db (service b));
                user_id := m_from_user message;
                chat_id := chat; text := strip t;
                remind_time := wall_of rt; created_at := db_now;
                job_id := make_job_id (m_from_user message) ts |} in
  res.1 = Done tt
  /\ db (service res.2) = db (service b) ++ [row]
  /\ get_job (job_id row) (sched (service res.2))
     = Some {| fire_time :=
                 Aware (wall_of rt
                        - utcoffset (result_tzinfo (m_text message)));
               payload := (chat, strip t) |}
  /\ ctx_state <$> user_contexts res.2 !! m_from_user message
     = Some MAIN_MENU.
Proof.
  intros Hctx Hst Hchat Ht Hparse Hlen Hfut Hfresh Harm Hapi res row.
  subst res. unfold handle_text_input. rewrite Hctx, Hst, Hparse.
  unfold create_from_context. rewrite Hchat, Ht. cbn [getitem].
  unfold ReminderCreate_init.
  rewrite validate_text_ok, validate_remind_time_future by done.
  destruct (create_reminder_fresh arm_fails ts db_now
              {| rc_user_id := m_from_user message; rc_chat_id := chat;
                 rc_text := strip t;
                 rc_remind_time := aware_of utcoffset (m_text message) rt |}
              (service b))
    as (row' & st' & Hcreate & _ & _); [done | apply Harm |].
  rewrite Hcreate.
  apply create_reminder_ok in Hcreate as (_ & Hrow & Hdb & Hjob).
  cbn [rc_user_id rc_chat_id rc_text rc_remind_time] in Hrow, Hjob.
  fold row in Hrow. subst row'.
  unfold api, set_service, set_contexts.
  cbn [fst snd user_contexts service calls]. rewrite Hapi.
  cbn [fst snd user_contexts service calls].
  split; [done|]. split; [done|]. split; [exact Hjob|].
  by rewrite lookup_insert_eq.
Qed.

(** X18: from the create button to the stored reminder.  A user presses the
    create button, sends a text of at most 500 characters, then a time that
    is understood and whose instant lies in the future; with a job id new to
    the table, a scheduler that takes the job and Bot API calls that go
    through, the last step stores one row: for that user, addressed to the
    chat of the button press, with the trimmed text of the first message and
    the wall clock of the parsed time.  Its job is armed under its job id at
    the instant of the parsed time, the wall clock less the offset of the
    tzinfo it carries: that of [now] for a phrase with [через], that of the
    configured zone object otherwise.  The context is back in
    [MAIN_MENU]. *)
Theorem conversation_creates_reminder (call : CallbackQuery)
    (message1 message2 : Message) (b : Bot)
    (now_dt1 now_dt2 : datetime) (now1 ts1 db_now1 now2 ts2 db_now2 : Z)
    (rt : datetime) :
  let user := c_from_user call in
  m_from_user message1 = user -> m_from_user message2 = user ->
  (forall n, api_fails n = false) ->
  (forall j job, arm_fails j job = false) ->
  len (m_text message1) <= 500 ->
  parse strptime now_dt2 (m_text message2) = Ok (Some rt) ->
  now2 < aware_of utcoffset (m_text message2) rt ->
  make_job_id user ts2 ∉ job_id <$> db (service b) ->
  let b1 := (handle_create_reminder api_fails call b).2 in
  let b2 := (handle_text_input arm_fails strptime utcoffset strftime_dt
               validation_message api_fails now_dt1 now1 ts1 db_now1
               message1 b1).2 in
  let res := handle_text_input arm_fails strptime utcoffset strftime_dt
               validation_message api_fails now_dt2 now2 ts2 db_now2
               message2 b2 in
  let row := {| id := next_id (db (service b)); user_id := user;
                chat_id := c_chat call; text := strip (m_text message1);
                remind_time := wall_of rt; created_at := db_now2;
                job_id := make_job_id user ts2 |} in
  res.1 = Done tt
  /\ db (service res.2) = db (service b) ++ [row]
  /\ get_job (job_id row) (sched (service res.2))
     = Some {| fire_time :=
                 Aware (wall_of rt
                        - utcoffset (result_tzinfo (m_text message2)));
               payload := (c_chat call, strip (m_text message1)) |}
  /\ ctx_state <$> user_contexts res.2 !! user = Some MAIN_MENU.
Proof.
  intros user Hu1 Hu2 Hapi Harm Hlen Hparse Hfut Hfresh b1 b2 res row.
  assert (H1 : user_contexts b1 !! m_from_user message1
               = Some {| ctx_state := SET_TEXT;
                         data_chat_id := Some (c_chat call);
                         data_text := None |}).
  { subst b1. rewrite Hu1. apply lookup_insert_eq. }
  assert (Hs1 : service b1 = service b) by reflexivity.
  destruct (text_entry_step now_dt1 now1 ts1 db_now1 message1 b1 _ H1
              eq_refl) as [Hc2 Hs2].
  fold b2 in Hc2, Hs2. cbn [data_chat_id] in Hc2.
  assert (H2 : user_contexts b2 !! m_from_user message2
               = Some {| ctx_state := SET_TIME;
                         data_chat_id := Some (c_chat call);
                         data_text := Some (m_text message1) |}).
  { rewrite Hc2, Hu1, Hu2. apply lookup_insert_eq. }
  pose proof (time_entry_step now_dt2 now2 ts2 db_now2 message2 b2 _
                (c_chat call) (m_text message1) rt H2 eq_refl eq_refl eq_refl
                Hparse Hlen Hfut) as Hstep.
  rewrite Hs2, Hs1, Hu2 in Hstep.
  apply Hstep; [done | done | apply Hapi].
Qed.

(** X19: after [/start] or the cancel button, a text message of that user
    is dropped: nothing is replied, nothing is stored, and the state is the
    one the reset left. *)
Theorem text_after_reset_ignored (start : Message) (call : CallbackQuery)
    (message : Message) (b : Bot) (now_dt : datetime) (now ts db_now : Z) :
  (m_from_user message = m_from_user start ->
   let b1 := (handle_start api_fails start b).2 in
   handle_text_input arm_fails strptime utcoffset strftime_dt
     validation_message api_fails now_dt now ts db_now message b1
   = (Done tt, b1))
  /\ (m_from_user message = c_from_user call ->
      let b1 := (handle_cancel api_fails call b).2 in
      handle_text_input arm_fails strptime utcoffset strftime_dt
        validation_message api_fails now_dt now ts db_now message b1
      = (Done tt, b1)).
Proof.
  split; intros Hu b1; subst b1; unfold handle_text_input;
    unfold handle_start, handle_cancel, api, set_contexts;
    cbn [fst snd user_contexts service calls];
    rewrite Hu, lookup_insert_eq; reflexivity.
Qed.

End ConversationFlows.

Lemma handle_text_input_no_key_error_witness :
  let b1 := (on_callback_query Samples.no_strftime Samples.api_ok 0
               Samples.press_create Samples.empty_bot).2 in
  let b2 := (handle_text_input Samples.arm_ok Samples.no_strptime
               Samples.moscow Samples.no_strftime_dt Samples.no_message
               Samples.api_ok Samples.noon 0 100 0 Samples.say_text b1).2 in
  (handle_text_input Samples.arm_ok Samples.no_strptime Samples.moscow
     Samples.no_strftime_dt Samples.no_message Samples.api_ok Samples.noon
     0 100 0 Samples.say_time b2).1 <> Fail KeyError.
Proof.
  intros b1 b2.
  apply (handle_text_input_no_key_error Samples.arm_ok Samples.no_strptime
           Samples.moscow Samples.no_strftime Samples.no_strftime_dt
           Samples.no_message Samples.api_ok b2).
  apply conv_text, conv_callback, conv_initial.
Defined.

Lemma press_delete_button_witness :
  let b := {| user_contexts := ∅;
              service := {| db := [Samples.milk]; sched := Sched.empty |};
              calls := [] |} in
  let call := {| c_id := lit "2"; c_from_user := 9; c_chat := 8;
                 c_message_id := 1;
                 c_data := callback_data
                             (reminder_button Samples.no_strftime
                                Samples.milk) |} in
  db (service (on_callback_query Samples.no_strftime Samples.api_ok 0
                 call b).2) = [].
Proof.
  intros b call.
  refine (proj1 (press_delete_button Samples.no_strftime Samples.api_ok 0
                   call b Samples.milk _ _ _)).
  - repeat split.
    + apply (bool_decide_unpack _). vm_compute. exact I.
    + apply (bool_decide_unpack _). vm_compute. exact I.
    + intros r' Hr'. apply list_elem_of_singleton in Hr' as ->. discriminate.
  - apply list_elem_of_singleton. reflexivity.
  - reflexivity.
Defined.

Lemma time_entry_rejected_witness :
  let context := {| ctx_state := SET_TIME; data_chat_id := Some 8;
                    data_text := Some (lit " buy milk ") |} in
  let b := {| user_contexts := {[ 7 := context ]}; service := initial;
              calls := [] |} in
  service (handle_text_input Samples.arm_ok Samples.no_strptime
             Samples.moscow Samples.no_strftime_dt Samples.no_message
             Samples.api_ok Samples.noon
             (Samples.noon_instant) 100 0 Samples.say_past b).2
  = initial.
Proof.
  intros context b.
  refine (proj1 (time_entry_rejected Samples.arm_ok Samples.no_strptime
                   Samples.moscow Samples.no_strftime_dt
                   Samples.no_message Samples.api_ok Samples.noon
                   (Samples.noon_instant) 100 0 Samples.say_past
                   b context 8 (lit " buy milk ") _ _ _ _ _)).
  - apply lookup_singleton_eq.
  - reflexivity.
  - reflexivity.
  - reflexivity.
  - right.
    exists {| ordinal := 739925; hour := 11; minute := 55; second := 0;
              microsecond := 0 |}.
    split; [vm_compute; reflexivity|]. left. vm_compute. discriminate.
Defined.

Lemma conversation_creates_reminder_witness :
  let b1 := (handle_create_reminder Samples.api_ok Samples.press_create
               Samples.empty_bot).2 in
  let b2 := (handle_text_input Samples.arm_ok Samples.no_strptime
               Samples.moscow Samples.no_strftime_dt Samples.no_message
               Samples.api_ok Samples.noon 0 100 0 Samples.say_text b1).2 in
  let res := handle_text_input Samples.arm_ok Samples.no_strptime
               Samples.moscow Samples.no_strftime_dt Samples.no_message
               Samples.api_ok Samples.noon
               (Samples.noon_instant) 100 0 Samples.say_time b2 in
  db (service res.2)
  = [ {| id := 1; user_id := 7; chat_id := 8; text := lit "buy milk";
         remind_time := wall_of Samples.noon + 300000000;
         created_at := 0; job_id := make_job_id 7 100 |} ].
Proof.
  intros b1 b2 res.
  pose proof (conversation_creates_reminder Samples.arm_ok
                Samples.no_strptime Samples.moscow
                Samples.no_strftime_dt Samples.no_message Samples.api_ok
                Samples.press_create Samples.say_text Samples.say_time
                Samples.empty_bot Samples.noon Samples.noon 0 100 0
                (Samples.noon_instant) 100 0
                {| ordinal := 739925; hour := 12; minute := 5; second := 0;
                   microsecond := 0 |}) as H.
  cbv zeta in H.
  destruct H as (_ & Hdb & _).
  - reflexivity.
  - reflexivity.
  - reflexivity.
  - reflexivity.
  - vm_compute. discriminate.
  - vm_compute. reflexivity.
  - vm_compute. reflexivity.
  - simpl. apply not_elem_of_nil.
  - subst res b2 b1. rewrite Hdb. vm_compute. reflexivity.
Defined.

Lemma text_after_reset_ignored_witness :
  let b1 := (handle_cancel Samples.api_ok Samples.press_create
               Samples.empty_bot).2 in
  handle_text_input Samples.arm_ok Samples.no_strptime Samples.moscow
    Samples.no_strftime_dt Samples.no_message Samples.api_ok Samples.noon
    0 100 0 Samples.say_time b1
  = (Done tt, b1).
Proof.
  intros b1.
  refine (proj2 (text_after_reset_ignored Samples.arm_ok Samples.no_strptime
                   Samples.moscow Samples.no_strftime_dt
                   Samples.no_message Samples.api_ok Samples.say_text
                   Samples.press_create Samples.say_time Samples.empty_bot
                   Samples.noon 0 100 0) _).
  reflexivity.
Defined.

(** ** Two runs *)

(** Digits of any script are read: five minutes, in Arabic-Indic digits. *)
Example parse_relative_other_digits
    (strptime : str -> format -> result datetime) :
  parse strptime Samples.noon (lit "через ٥ минут")
  = Ok (Some {| ordinal := 739925; hour := 12; minute := 5; second := 0;
                microsecond := 0 |}).
Proof. reflexivity. Qed.

(** [в 15:00] typed at 15:10 in Moscow: the zone object as [replace]
    attaches it is at +02:30, so the instant is still twenty minutes ahead
    and the request is accepted; the row keeps the wall clock 15:00, the job
    is armed for 15:00 at +02:30, and the listing, which goes by wall clocks,
    does not show the row. *)
Example absolute_time_just_past :
  let b1 := (handle_create_reminder Samples.api_ok Samples.press_create
               Samples.empty_bot).2 in
  let b2 := (handle_text_input Samples.arm_ok Samples.no_strptime
               Samples.moscow Samples.no_strftime_dt Samples.no_message
               Samples.api_ok Samples.noon 0 100 0 Samples.say_text b1).2 in
  let ten_past := {| ordinal := 739925; hour := 15; minute := 10;
                     second := 0; microsecond := 0 |} in
  let three := {| ordinal := 739925; hour := 15; minute := 0; second := 0;
                  microsecond := 0 |} in
  let res := handle_text_input Samples.arm_ok Samples.no_strptime
               Samples.moscow Samples.no_strftime_dt Samples.no_message
               Samples.api_ok ten_past
               (wall_of ten_past - Samples.moscow TzNow) 100 0
               {| m_from_user := 7; m_chat := 8; m_text := lit "в 15:00" |}
               b2 in
  res.1 = Done tt
  /\ remind_time <$> db (service res.2) = [wall_of three]
  /\ fire_time <$> get_job (make_job_id 7 100) (sched (service res.2))
     = Some (Aware (wall_of three - 9000000000))
  /\ (get_user_reminders (wall_of ten_past) 7 (service res.2)).1 = [].
Proof. vm_compute. repeat split. Qed.
